(** * Hostezee: the enquiry calendar and the room-occupancy calendar

    A shallow embedding of two React pages of the client:
    - the "New Enquiry" page ([NewEnquiryCalendar]): date-range selection by
      successive calendar clicks, the availability request, room choice and
      the guest form with its schema validation;
    - the "Room Availability Calendar" page ([RoomCalendar]): the per-day
      occupancy test over the bookings of the selected property.

    React state is an explicit record; an event handler is a computation
    that reads the rendered state, calls setters and emits effects (toasts,
    the availability request, the enquiry-creation request).  The
    continuations that run when a request settles are events of their own. *)

From Stdlib Require Import ZArith QArith Qround Bool List Ascii String Lia.
Import ListNotations.
Local Open Scope Z_scope.

(** ** JavaScript values used by the pages *)

Module Js.

(** Numbers that serve as keys (property and room ids): the results of
    [parseInt] and the integer columns of the schema.  [NaN] is what
    [parseInt] returns on a string without a leading integer. *)
Inductive number := NaN | Int (z : Z).

(** Truthiness of a number: [0] and [NaN] are falsy. *)
Definition truthy (n : number) : bool :=
  match n with
  | NaN => false
  | Int z => negb (z =? 0)
  end.

(** Truthiness of [number | undefined]. *)
Definition truthy_opt (o : option number) : bool :=
  match o with
  | None => false
  | Some n => truthy n
  end.

(** [a === b] on numbers; [NaN] equals nothing. *)
Definition strict_eq (a b : number) : bool :=
  match a, b with
  | Int x, Int y => x =? y
  | _, _ => false
  end.

(** [Object.is]-style identity of two numbers (the same value passed on). *)
Definition same (a b : number) : bool :=
  match a, b with
  | NaN, NaN => true
  | Int x, Int y => x =? y
  | _, _ => false
  end.

(** A valid [Date], as its time value in milliseconds since the epoch.
    Relational operators on dates compare time values. *)
Definition Date := Z.

(** date-fns [isBefore]. *)
Definition isBefore (date dateToCompare : Date) : bool := date <? dateToCompare.

(** The result of [Number(input)] on a form input: [NaN] or a finite
    number.  Only order and integrality are observed, so a finite number
    is kept as the rational it denotes. *)
Inductive coerced := CNaN | CNum (q : Q).

Definition isInteger (q : Q) : bool := Qeq_bool q (inject_Z (Qfloor q)).

(** A string is kept as the UTF-8 bytes of its text.  The [length] of a
    JavaScript string is its number of UTF-16 code units: a byte below 0x80
    and the lead byte of a sequence of two or three bytes (0xC0 to 0xEF)
    start a character of one unit, the lead byte of a sequence of four
    bytes (0xF0 and above) a character of two units, a surrogate pair;
    continuation bytes (0x80 to 0xBF) add nothing. *)
Definition units (c : ascii) : nat :=
  let n := nat_of_ascii c in
  if (n <? 128)%nat then 1%nat
  else if (n <? 192)%nat then 0%nat
  else if (n <? 240)%nat then 1%nat
  else 2%nat.

Fixpoint length (s : string) : nat :=
  match s with
  | EmptyString => 0%nat
  | String c rest => (units c + length rest)%nat
  end.

End Js.

(** ** Records of the shared schema *)

Module Schema.

(** Modelled from the spec: the [Room] record of [@shared/schema], which is
    not among the sources; the fields are the ones the pages read
    (id, room number, room type, nightly price, owning property). *)
Record Room := {
  id : Js.number;
  propertyId : Js.number;
  roomNumber : string;
  roomType : string;
  pricePerNight : string
}.

End Schema.

Module Booking.

(** Modelled from the spec: the [Booking] record of [@shared/schema], with
    the fields the occupancy calendar reads.  [checkInDate] and
    [checkOutDate] stand for [new Date(booking.checkInDate)] and
    [new Date(booking.checkOutDate)]. *)
Record t := {
  propertyId : Js.number;
  roomId : Js.number;
  status : string;
  checkInDate : Js.Date;
  checkOutDate : Js.Date
}.

End Booking.

(** ** room-calendar.tsx *)

Module RoomCalendar.

Section Page.

Variable selectedPropertyId : option Js.number.
Variable rooms : list Schema.Room.
Variable bookings : list Booking.t.

Definition propertyRooms : list Schema.Room :=
  match selectedPropertyId with
  | None => []
  | Some sel =>
      if negb (Js.truthy sel) then []
      else filter (fun room => Js.strict_eq (Schema.propertyId room) sel) rooms
  end.

Definition propertyBookings : list Booking.t :=
  match selectedPropertyId with
  | None => []
  | Some sel =>
      if negb (Js.truthy sel) then []
      else filter
             (fun booking =>
                Js.strict_eq (Booking.propertyId booking) sel
                && (String.eqb (Booking.status booking) "confirmed"
                    || String.eqb (Booking.status booking) "checked-in"))
             bookings
  end.

Definition isRoomOccupied (roomId : Js.number) (date : Js.Date) : bool :=
  existsb
    (fun booking =>
       if negb (Js.strict_eq (Booking.roomId booking) roomId) then false
       else
         let checkIn := Booking.checkInDate booking in
         let checkOut := Booking.checkOutDate booking in
         (checkIn <=? date) && (date <? checkOut))
    propertyBookings.

Definition getAvailableRoomsCount (date : Js.Date) : nat :=
  List.length (filter (fun room => negb (isRoomOccupied (Schema.id room) date))
                 propertyRooms).

(** The calendar grid is rendered only in the branch where
    [!selectedPropertyId] is false. *)
Definition calendarRendered : bool := Js.truthy_opt selectedPropertyId.

End Page.

(** Calendar days of May 2024 at UTC midnight, in milliseconds. *)
Definition day_ms : Z := 86400000.
Definition may (d : Z) : Js.Date := (19843 + d) * day_ms.

(** Some day of the stay [[checkIn, checkOut)] finds the room occupied. *)
Definition stayMeetsOccupancy (sel : option Js.number) (bs : list Booking.t)
           (roomId : Js.number) (checkIn checkOut : Js.Date) : Prop :=
  exists d, checkIn <= d < checkOut /\ isRoomOccupied sel bs roomId d = true.

Definition reservation_10_15 (p r : Js.number) : Booking.t :=
  {| Booking.propertyId := p; Booking.roomId := r; Booking.status := "confirmed";
     Booking.checkInDate := may 10; Booking.checkOutDate := may 15 |}.

End RoomCalendar.

(** ** The New Enquiry page *)

Module Input.

(** The values held by the guest form when it is submitted, as the
    resolver receives them.  The numeric fields are kept after [Number(.)]
    of [z.coerce]; [None] is [undefined]. *)
Record t := {
  guestName : string;
  guestPhone : string;
  guestEmail : option string;
  numberOfGuests : Js.coerced;
  priceQuoted : option Js.coerced;
  advanceAmount : option Js.coerced;
  specialRequests : option string
}.

(** [defaultValues] of [useForm]. *)
Definition defaultValues : t :=
  {| guestName := ""; guestPhone := ""; guestEmail := Some ""%string;
     numberOfGuests := Js.CNum 1%Q; priceQuoted := None; advanceAmount := None;
     specialRequests := Some ""%string |}.

End Input.

Module Form.

(** [EnquiryFormData]: the output of [enquiryFormSchema]. *)
Record t := {
  guestName : string;
  guestPhone : string;
  guestEmail : option string;
  numberOfGuests : Q;
  priceQuoted : option Q;
  advanceAmount : option Q;
  specialRequests : option string
}.

End Form.

Module Zod.

(** [z.string().min(n)]: the [length] of the string is at least [n]. *)
Definition string_min (n : nat) (s : string) : bool := (n <=? Js.length s)%nat.

(** [z.coerce.number().int().min(1)]. *)
Definition guests (c : Js.coerced) : option Q :=
  match c with
  | Js.CNaN => None
  | Js.CNum q => if Js.isInteger q && Qle_bool 1%Q q then Some q else None
  end.

(** [z.coerce.number().min(0).optional()]: [undefined] passes unchanged,
    anything else is coerced and checked. *)
Definition amount (o : option Js.coerced) : option (option Q) :=
  match o with
  | None => Some None
  | Some Js.CNaN => None
  | Some (Js.CNum q) => if Qle_bool 0%Q q then Some (Some q) else None
  end.

Section Schema.

(** The library's e-mail pattern. *)
Variable isEmail : string -> bool.

(** [z.string().email().optional().or(z.literal(""))]. *)
Definition email (o : option string) : option (option string) :=
  match o with
  | None => Some None
  | Some s => if isEmail s || String.eqb s "" then Some (Some s) else None
  end.

(** [enquiryFormSchema]: [Some data] when every field passes. *)
Definition enquiryFormSchema (v : Input.t) : option Form.t :=
  if negb (string_min 2 (Input.guestName v)) then None
  else if negb (string_min 10 (Input.guestPhone v)) then None
  else
    match email (Input.guestEmail v), guests (Input.numberOfGuests v),
          amount (Input.priceQuoted v), amount (Input.advanceAmount v) with
    | Some e, Some n, Some p, Some a =>
        Some {| Form.guestName := Input.guestName v;
                Form.guestPhone := Input.guestPhone v;
                Form.guestEmail := e;
                Form.numberOfGuests := n;
                Form.priceQuoted := p;
                Form.advanceAmount := a;
                Form.specialRequests := Input.specialRequests v |}
    | _, _, _, _ => None
    end.

End Schema.

(** Decimal digits of a string, for the wording of the phone message. *)
Definition isDigit (c : Ascii.ascii) : bool :=
  let n := Ascii.nat_of_ascii c in ((48 <=? n) && (n <=? 57))%nat.

Fixpoint countDigits (s : string) : nat :=
  match s with
  | EmptyString => 0%nat
  | String c rest => ((if isDigit c then 1 else 0) + countDigits rest)%nat
  end.

End Zod.

Module Enquiry.

(** The body of [POST /api/enquiries] built by [onSubmit]; [None] is
    [null].  The quoted price and the advance are sent as the decimal
    rendering of the number, kept here as the number. *)
Record t := {
  propertyId : Js.number;
  guestName : string;
  guestPhone : string;
  guestEmail : option string;
  checkInDate : Js.Date;
  checkOutDate : Js.Date;
  roomId : Js.number;
  numberOfGuests : Q;
  priceQuoted : option Q;
  advanceAmount : option Q;
  specialRequests : option string;
  status : string
}.

End Enquiry.

Module NewEnquiry.

(** The [useState] cells of [NewEnquiryCalendar] and the values of the
    guest form.  ([currentDate], the month on display, takes no part in
    selection and is left out.) *)
Record State := {
  selectedPropertyId : option Js.number;
  checkInDate : option Js.Date;
  checkOutDate : option Js.Date;
  availableRooms : list Schema.Room;
  selectedRoomId : option Js.number;
  loadingRooms : bool;
  showGuestForm : bool;
  form : Input.t
}.

(** The state of the first render. *)
Definition initial : State :=
  {| selectedPropertyId := None; checkInDate := None; checkOutDate := None;
     availableRooms := []; selectedRoomId := None; loadingRooms := false;
     showGuestForm := false; form := Input.defaultValues |}.

(** The request [GET /api/rooms/availability?propertyId=..&checkIn=..&checkOut=..].
    [selectedPropertyId!] erases to the value itself, so the first
    component is whatever the state cell holds. *)
Record Query := {
  qPropertyId : option Js.number;
  qCheckIn : Js.Date;
  qCheckOut : Js.Date
}.

(** Toasts, by title. *)
Inductive Toast :=
| InvalidDate
| NoRoomsAvailable
| RoomsFound (count : nat)
| AvailabilityError
| MissingInformation
| EnquiryCreated
| CreateError (message : string).

Definition title (t : Toast) : string :=
  match t with
  | InvalidDate => "Invalid Date"
  | NoRoomsAvailable => "No Rooms Available"
  | RoomsFound _ => "Rooms Found!"
  | AvailabilityError => "Error"
  | MissingInformation => "Missing Information"
  | EnquiryCreated => "Enquiry Created!"
  | CreateError _ => "Error"
  end.

(** What a handler does besides setting state. *)
Inductive Effect :=
| toast (t : Toast)
| fetch (q : Query)
| mutate (e : Enquiry.t)
| invalidateQueries
| fieldErrors.

(** How the availability request settles: a parsed room list, or a
    rejected fetch, a non-ok status or an unreadable body. *)
Inductive Response :=
| rooms_ok (rooms : list Schema.Room)
| rooms_failed.

(** *** Handlers as state-and-effect computations *)

Definition Handler (A : Type) : Type := State -> A * State * list Effect.

Definition ret {A} (a : A) : Handler A := fun s => (a, s, []).

Definition bind {A B} (c : Handler A) (k : A -> Handler B) : Handler B :=
  fun s =>
    let '(a, s1, e1) := c s in
    let '(b, s2, e2) := k a s1 in
    (b, s2, e1 ++ e2).

Declare Scope handler_scope.
Delimit Scope handler_scope with handler.
Notation "x <- c ;; k" := (bind c (fun x => k))
  (at level 61, c at next level, right associativity) : handler_scope.
Notation "c ;; k" := (bind c (fun _ => k))
  (at level 61, right associativity) : handler_scope.
Local Open Scope handler_scope.

(** The values the handler's closure captured at render time. *)
Definition rendered : Handler State := fun s => (s, s, []).

Definition emit (e : Effect) : Handler unit := fun s => (tt, s, [e]).

Definition setSelectedPropertyId (v : option Js.number) : Handler unit :=
  fun s => (tt, {| selectedPropertyId := v; checkInDate := checkInDate s;
                   checkOutDate := checkOutDate s; availableRooms := availableRooms s;
                   selectedRoomId := selectedRoomId s; loadingRooms := loadingRooms s;
                   showGuestForm := showGuestForm s; form := form s |}, []).

Definition setCheckInDate (v : option Js.Date) : Handler unit :=
  fun s => (tt, {| selectedPropertyId := selectedPropertyId s; checkInDate := v;
                   checkOutDate := checkOutDate s; availableRooms := availableRooms s;
                   selectedRoomId := selectedRoomId s; loadingRooms := loadingRooms s;
                   showGuestForm := showGuestForm s; form := form s |}, []).

Definition setCheckOutDate (v : option Js.Date) : Handler unit :=
  fun s => (tt, {| selectedPropertyId := selectedPropertyId s; checkInDate := checkInDate s;
                   checkOutDate := v; availableRooms := availableRooms s;
                   selectedRoomId := selectedRoomId s; loadingRooms := loadingRooms s;
                   showGuestForm := showGuestForm s; form := form s |}, []).

Definition setAvailableRooms (v : list Schema.Room) : Handler unit :=
  fun s => (tt, {| selectedPropertyId := selectedPropertyId s; checkInDate := checkInDate s;
                   checkOutDate := checkOutDate s; availableRooms := v;
                   selectedRoomId := selectedRoomId s; loadingRooms := loadingRooms s;
                   showGuestForm := showGuestForm s; form := form s |}, []).

Definition setSelectedRoomId (v : option Js.number) : Handler unit :=
  fun s => (tt, {| selectedPropertyId := selectedPropertyId s; checkInDate := checkInDate s;
                   checkOutDate := checkOutDate s; availableRooms := availableRooms s;
                   selectedRoomId := v; loadingRooms := loadingRooms s;
                   showGuestForm := showGuestForm s; form := form s |}, []).

Definition setLoadingRooms (v : bool) : Handler unit :=
  fun s => (tt, {| selectedPropertyId := selectedPropertyId s; checkInDate := checkInDate s;
                   checkOutDate := checkOutDate s; availableRooms := availableRooms s;
                   selectedRoomId := selectedRoomId s; loadingRooms := v;
                   showGuestForm := showGuestForm s; form := form s |}, []).

Definition setShowGuestForm (v : bool) : Handler unit :=
  fun s => (tt, {| selectedPropertyId := selectedPropertyId s; checkInDate := checkInDate s;
                   checkOutDate := checkOutDate s; availableRooms := availableRooms s;
                   selectedRoomId := selectedRoomId s; loadingRooms := loadingRooms s;
                   showGuestForm := v; form := form s |}, []).

(** [field.onChange] of the form inputs, and [form.reset()]. *)
Definition setForm (v : Input.t) : Handler unit :=
  fun s => (tt, {| selectedPropertyId := selectedPropertyId s; checkInDate := checkInDate s;
                   checkOutDate := checkOutDate s; availableRooms := availableRooms s;
                   selectedRoomId := selectedRoomId s; loadingRooms := loadingRooms s;
                   showGuestForm := showGuestForm s; form := v |}, []).

(** *** The handlers of the page *)

(** [checkAvailability] up to its first [await]: the flag is raised and
    the request leaves. *)
Definition checkAvailability (propertyId : option Js.number) (checkIn checkOut : Js.Date)
  : Handler unit :=
  setLoadingRooms true ;;
  emit (fetch {| qPropertyId := propertyId; qCheckIn := checkIn; qCheckOut := checkOut |}).

(** The rest of [checkAvailability], run when the request settles:
    the [try] body, the [catch] and the [finally]. *)
Definition availabilitySettled (r : Response) : Handler unit :=
  match r with
  | rooms_ok rooms =>
      setAvailableRooms rooms ;;
      (if (List.length rooms =? 0)%nat then emit (toast NoRoomsAvailable)
       else emit (toast (RoomsFound (List.length rooms))))
  | rooms_failed =>
      emit (toast AvailabilityError) ;;
      setAvailableRooms []
  end ;;
  setLoadingRooms false.

(** [today] is [startOfDay(new Date())] at the time of the click. *)
Definition handleDateClick (today date : Js.Date) : Handler unit :=
  s <- rendered ;;
  if Js.isBefore date today then ret tt
  else
    match checkInDate s with
    | None =>
        setCheckInDate (Some date) ;;
        setCheckOutDate None ;;
        setAvailableRooms [] ;;
        setSelectedRoomId None ;;
        setShowGuestForm false
    | Some checkIn =>
        match checkOutDate s with
        | None =>
            if date <=? checkIn then emit (toast InvalidDate)
            else
              setCheckOutDate (Some date) ;;
              checkAvailability (selectedPropertyId s) checkIn date
        | Some _ =>
            setCheckInDate (Some date) ;;
            setCheckOutDate None ;;
            setAvailableRooms [] ;;
            setSelectedRoomId None ;;
            setShowGuestForm false
        end
    end.

Definition handleRoomSelect (roomId : Js.number) : Handler unit :=
  setSelectedRoomId (Some roomId) ;;
  setShowGuestForm true.

(** [x || null] on an optional string: the empty string is falsy. *)
Definition or_null (o : option string) : option string :=
  match o with
  | Some s => if String.eqb s "" then None else Some s
  | None => None
  end.

Definition onSubmit (data : Form.t) : Handler unit :=
  s <- rendered ;;
  match selectedPropertyId s, checkInDate s, checkOutDate s, selectedRoomId s with
  | Some p, Some checkIn, Some checkOut, Some r =>
      if negb (Js.truthy p) || negb (Js.truthy r) then emit (toast MissingInformation)
      else
        emit (mutate
                {| Enquiry.propertyId := p;
                   Enquiry.guestName := Form.guestName data;
                   Enquiry.guestPhone := Form.guestPhone data;
                   Enquiry.guestEmail := or_null (Form.guestEmail data);
                   Enquiry.checkInDate := checkIn;
                   Enquiry.checkOutDate := checkOut;
                   Enquiry.roomId := r;
                   Enquiry.numberOfGuests := Form.numberOfGuests data;
                   Enquiry.priceQuoted := Form.priceQuoted data;
                   Enquiry.advanceAmount := Form.advanceAmount data;
                   Enquiry.specialRequests := or_null (Form.specialRequests data);
                   Enquiry.status := "new" |})
  | _, _, _, _ => emit (toast MissingInformation)
  end.

(** [createEnquiryMutation.onSuccess]. *)
Definition onSuccess : Handler unit :=
  emit invalidateQueries ;;
  emit (toast EnquiryCreated) ;;
  setCheckInDate None ;;
  setCheckOutDate None ;;
  setAvailableRooms [] ;;
  setSelectedRoomId None ;;
  setShowGuestForm false ;;
  setForm Input.defaultValues.

(** [createEnquiryMutation.onError]. *)
Definition onError (message : string) : Handler unit :=
  emit (toast (CreateError (if String.eqb message "" then "Failed to create enquiry" else message))).

(** [onValueChange] of the property select; [value] is [parseInt(value)]. *)
Definition onValueChange (value : Js.number) : Handler unit :=
  setSelectedPropertyId (Some value) ;;
  setCheckInDate None ;;
  setCheckOutDate None ;;
  setAvailableRooms [] ;;
  setSelectedRoomId None ;;
  setShowGuestForm false.

Section Page.

Variable isEmail : string -> bool.

(** [form.handleSubmit(onSubmit)]: the resolver runs first, and [onSubmit]
    is called only with data that passed. *)
Definition handleSubmit : Handler unit :=
  s <- rendered ;;
  match Zod.enquiryFormSchema isEmail (form s) with
  | Some data => onSubmit data
  | None => emit fieldErrors
  end.

(** *** The session: the page together with its requests in flight *)

Record World := {
  ui : State;
  inflight : list Query;
  saving : list Enquiry.t
}.

Definition start : World := {| ui := initial; inflight := []; saving := [] |}.

(** What can happen to the page.  A request in flight is named by its
    position in the list of those still unsettled. *)
Inductive Event :=
| PropertyChanged (value : Js.number)
| DateClicked (today date : Js.Date)
| RoomClicked (roomId : Js.number)
| FormEdited (v : Input.t)
| FormSubmitted
| AvailabilitySettled (i : nat) (r : Response)
| EnquirySaved (i : nat)
| EnquiryFailed (i : nat) (message : string).

Definition handler (e : Event) : Handler unit :=
  match e with
  | PropertyChanged value => onValueChange value
  | DateClicked today date => handleDateClick today date
  | RoomClicked roomId => handleRoomSelect roomId
  | FormEdited v => setForm v
  | FormSubmitted => handleSubmit
  | AvailabilitySettled _ r => availabilitySettled r
  | EnquirySaved _ => onSuccess
  | EnquiryFailed _ message => onError message
  end.

Fixpoint queries (es : list Effect) : list Query :=
  match es with
  | [] => []
  | fetch q :: rest => q :: queries rest
  | _ :: rest => queries rest
  end.

Fixpoint mutations (es : list Effect) : list Enquiry.t :=
  match es with
  | [] => []
  | mutate e :: rest => e :: mutations rest
  | _ :: rest => mutations rest
  end.

Definition cut {A} (i : nat) (l : list A) : list A := firstn i l ++ skipn (S i) l.

Definition step (e : Event) (w : World) : World * list Effect :=
  let '(_, s, effects) := handler e (ui w) in
  ({| ui := s;
      inflight :=
        (match e with
         | AvailabilitySettled i _ => cut i (inflight w)
         | _ => inflight w
         end) ++ queries effects;
      saving :=
        (match e with
         | EnquirySaved i | EnquiryFailed i _ => cut i (saving w)
         | _ => saving w
         end) ++ mutations effects |},
   effects).

(** The render conditions under which an event can be delivered: the
    calendar is rendered under [selectedPropertyId &&], the room buttons
    under [checkOutDate && availableRooms.length > 0], one per listed room,
    and the form under [showGuestForm &&].  The submit button is moreover
    disabled while a creation is pending; that condition is left out, so
    the reachable states include all those of the page and possibly more. *)
Definition enabled (e : Event) (w : World) : bool :=
  match e with
  | PropertyChanged _ => true
  | DateClicked _ _ => Js.truthy_opt (selectedPropertyId (ui w))
  | RoomClicked roomId =>
      match checkOutDate (ui w) with
      | Some _ => existsb (fun room => Js.same (Schema.id room) roomId) (availableRooms (ui w))
      | None => false
      end
  | FormEdited _ | FormSubmitted => showGuestForm (ui w)
  | AvailabilitySettled i _ => (i <? List.length (inflight w))%nat
  | EnquirySaved i | EnquiryFailed i _ => (i <? List.length (saving w))%nat
  end.

Inductive reachable : World -> Prop :=
| reachable_start : reachable start
| reachable_step w e :
    reachable w -> enabled e w = true -> reachable (fst (step e w)).

(** Delivering a list of events in order; [None] when one of them cannot
    be delivered.  The effects of all of them are collected. *)
Fixpoint run (es : list Event) (w : World) : option (World * list Effect) :=
  match es with
  | [] => Some (w, [])
  | e :: rest =>
      if enabled e w then
        let '(w1, out1) := step e w in
        match run rest w1 with
        | Some (w2, out2) => Some (w2, out1 ++ out2)
        | None => None
        end
      else None
  end.

End Page.

(** *** The selection states of the specification, read off the cells *)

Inductive SelectionState :=
| NoCheckIn
| AwaitingCheckOut
| RangeComplete
| RoomChosen
| GuestFormOpen.

Definition selectionState (s : State) : SelectionState :=
  match checkInDate s, checkOutDate s with
  | None, _ => NoCheckIn
  | Some _, None => AwaitingCheckOut
  | Some _, Some _ =>
      if showGuestForm s then GuestFormOpen
      else match selectedRoomId s with
           | Some _ => RoomChosen
           | None => RangeComplete
           end
  end.

(** The invariant of the date range. *)
Definition dateRangeInvariant (s : State) : Prop :=
  forall checkIn checkOut,
    checkInDate s = Some checkIn -> checkOutDate s = Some checkOut -> checkIn < checkOut.

(** Everything a handler reads or shows except the loading flag and the
    form values. *)
Definition selection (s : State) :=
  (selectedPropertyId s, checkInDate s, checkOutDate s, availableRooms s,
   selectedRoomId s, showGuestForm s).

(** The request [q] is for the selection on display; a request for which
    this fails has been superseded. *)
Definition current (s : State) (q : Query) : Prop :=
  selectedPropertyId s = qPropertyId q
  /\ checkInDate s = Some (qCheckIn q)
  /\ checkOutDate s = Some (qCheckOut q).

Section Guards.

Variable isEmail : string -> bool.

(** While a request that has not been superseded (the one for the
    selection on display) is in flight, no click completes a range: the
    click sends no request, and it leaves the page as it was or without a
    check-out. *)
Definition completionsSerialized : Prop :=
  forall w today date q,
    In q (inflight w) -> current (ui w) q ->
    queries (snd (step isEmail (DateClicked today date) w)) = []
    /\ (ui (fst (step isEmail (DateClicked today date) w)) = ui w
        \/ checkOutDate (ui (fst (step isEmail (DateClicked today date) w))) = None).

(** A superseded result leaves the room list alone when it arrives. *)
Definition staleResultsDiscarded : Prop :=
  forall w i q r,
    reachable isEmail w -> nth_error (inflight w) i = Some q ->
    ~ current (ui w) q ->
    availableRooms (ui (fst (step isEmail (AvailabilitySettled i r) w)))
    = availableRooms (ui w).

End Guards.

End NewEnquiry.

(** ** Sample data *)

Module Scenario.

Import NewEnquiry.

(** A stand-in for the e-mail pattern: the address contains an [@]. *)
Fixpoint isEmail (s : string) : bool :=
  match s with
  | EmptyString => false
  | String c rest => Ascii.eqb c "@"%char || isEmail rest
  end.

Definition room5 : Schema.Room :=
  {| Schema.id := Js.Int 5; Schema.propertyId := Js.Int 1;
     Schema.roomNumber := "101"; Schema.roomType := "Deluxe";
     Schema.pricePerNight := "2500" |}.

(** Property 1 chosen, then the range 10 to 13 picked on day 5: one request
    is in flight. *)
Definition pickRange : list Event :=
  [PropertyChanged (Js.Int 1); DateClicked 5 10; DateClicked 5 13].

(** The same, then a third click that starts a new range at 20. *)
Definition restartRange : list Event := pickRange ++ [DateClicked 5 20].

(** The same, then a change to property 2. *)
Definition changeProperty : list Event := pickRange ++ [PropertyChanged (Js.Int 2)].

(** The world a list of events leads to from the start. *)
Definition after (es : list Event) : World :=
  match run isEmail es start with
  | Some (w, _) => w
  | None => start
  end.

(** A guest with a nine-digit phone number written with a country prefix:
    ten characters in all. *)
Definition nineDigits : Input.t :=
  {| Input.guestName := "Asha"; Input.guestPhone := "+123456789";
     Input.guestEmail := Some ""%string; Input.numberOfGuests := Js.CNum 2%Q;
     Input.priceQuoted := None; Input.advanceAmount := None;
     Input.specialRequests := Some ""%string |}.

(** The same guest with a ten-digit number, as parsed by the schema. *)
Definition guest : Form.t :=
  {| Form.guestName := "Asha"; Form.guestPhone := "9876543210";
     Form.guestEmail := Some ""%string; Form.numberOfGuests := 2%Q;
     Form.priceQuoted := None; Form.advanceAmount := None;
     Form.specialRequests := Some ""%string |}.

End Scenario.

(** ** Render helpers of the two pages *)

Module EnquiryView.

Import NewEnquiry.

Section Cells.

(** [Date.prototype.toDateString]: the calendar day in local time. *)
Variable toDateString : Js.Date -> string.

Definition isDateInRange (s : State) (date : Js.Date) : bool :=
  match checkInDate s with
  | None => false
  | Some checkIn =>
      match checkOutDate s with
      | None => false
      | Some checkOut => (checkIn <=? date) && (date <=? checkOut)
      end
  end.

(** The truthiness of the value of [isDateSelected]. *)
Definition isDateSelected (s : State) (date : Js.Date) : bool :=
  match checkInDate s with
  | Some checkIn => String.eqb (toDateString date) (toDateString checkIn)
  | None => false
  end
  || match checkOutDate s with
     | Some checkOut => String.eqb (toDateString date) (toDateString checkOut)
     | None => false
     end.

End Cells.

(** The object [enquiryData] that [onSubmit] hands to the mutation. *)
Definition enquiryData (propertyId : Js.number) (checkIn checkOut : Js.Date)
           (roomId : Js.number) (data : Form.t) : Enquiry.t :=
  {| Enquiry.propertyId := propertyId;
     Enquiry.guestName := Form.guestName data;
     Enquiry.guestPhone := Form.guestPhone data;
     Enquiry.guestEmail := or_null (Form.guestEmail data);
     Enquiry.checkInDate := checkIn;
     Enquiry.checkOutDate := checkOut;
     Enquiry.roomId := roomId;
     Enquiry.numberOfGuests := Form.numberOfGuests data;
     Enquiry.priceQuoted := Form.priceQuoted data;
     Enquiry.advanceAmount := Form.advanceAmount data;
     Enquiry.specialRequests := or_null (Form.specialRequests data);
     Enquiry.status := "new" |}.

(** What holds of the cells whenever the page is on display. *)
Definition coherent (s : State) : Prop :=
  (checkOutDate s <> None -> checkInDate s <> None)
  /\ (checkInDate s <> None -> Js.truthy_opt (selectedPropertyId s) = true)
  /\ (showGuestForm s = true <-> selectedRoomId s <> None)
  /\ (showGuestForm s = true -> checkOutDate s <> None).

(** A whole enquiry, from the choice of the property to the saved record. *)
Definition enquiryFlow (p : Js.number) (today d1 d2 : Js.Date)
           (rooms : list Schema.Room) (r : Js.number) (v : Input.t) : list Event :=
  [PropertyChanged p; DateClicked today d1; DateClicked today d2;
   AvailabilitySettled 0 (rooms_ok rooms); RoomClicked r; FormEdited v;
   FormSubmitted; EnquirySaved 0].

End EnquiryView.

Module CalendarView.

(** The [variant] of the badge of a day of the occupancy calendar. *)
Inductive BadgeVariant := outline | secondary | destructive.

Definition badgeVariant (availableCount totalRooms : nat) : BadgeVariant :=
  if (availableCount =? totalRooms)%nat then outline
  else if (0 <? availableCount)%nat then secondary
  else destructive.

(** The badge of [day]: [availableCount] and [totalRooms] as the grid
    computes them. *)
Definition dayBadge (selectedPropertyId : option Js.number) (rooms : list Schema.Room)
           (bookings : list Booking.t) (day : Js.Date) : BadgeVariant :=
  badgeVariant
    (RoomCalendar.getAvailableRoomsCount selectedPropertyId rooms bookings day)
    (List.length (RoomCalendar.propertyRooms selectedPropertyId rooms)).

End CalendarView.

(** ** Further sample runs *)

Module Samples.

Import NewEnquiry.

(** The range picked, its rooms received, room 5 chosen and the form filled. *)
Definition formFilled : list Event :=
  Scenario.pickRange
  ++ [AvailabilitySettled 0 (rooms_ok [Scenario.room5]); RoomClicked (Js.Int 5);
      FormEdited Scenario.nineDigits].

(** Two ranges picked one after the other, then the first request settles
    while the second is still in flight. *)
Definition firstOfTwoSettled : list Event :=
  Scenario.restartRange
  ++ [DateClicked 5 25; AvailabilitySettled 0 (rooms_ok [Scenario.room5])].

(** A cancelled booking of room 5 for the first days of May 2024. *)
Definition cancelled : Booking.t :=
  {| Booking.propertyId := Js.Int 1; Booking.roomId := Js.Int 5;
     Booking.status := "cancelled";
     Booking.checkInDate := RoomCalendar.may 1; Booking.checkOutDate := RoomCalendar.may 9 |}.

(** A name of one CJK character (U+4E2D): three bytes, one code unit. *)
Definition oneCharacter : string :=
  String (ascii_of_nat 228) (String (ascii_of_nat 184) (String (ascii_of_nat 173) EmptyString)).

Definition oneCharacterName : Input.t :=
  {| Input.guestName := oneCharacter; Input.guestPhone := "9876543210";
     Input.guestEmail := Some ""%string; Input.numberOfGuests := Js.CNum 2%Q;
     Input.priceQuoted := None; Input.advanceAmount := None;
     Input.specialRequests := Some ""%string |}.

End Samples.

(** * Properties *)

Import NewEnquiry.

Ltac run_handler :=
  cbv [handleDateClick checkAvailability availabilitySettled handleRoomSelect
       onSubmit onSuccess onError onValueChange handleSubmit
       bind ret rendered emit
       setSelectedPropertyId setCheckInDate setCheckOutDate setAvailableRooms
       setSelectedRoomId setLoadingRooms setShowGuestForm setForm];
  cbn [fst snd app selectedPropertyId checkInDate checkOutDate availableRooms
       selectedRoomId loadingRooms showGuestForm form].

Lemma state_eta (s : State) :
  {| selectedPropertyId := selectedPropertyId s; checkInDate := checkInDate s;
     checkOutDate := checkOutDate s; availableRooms := availableRooms s;
     selectedRoomId := selectedRoomId s; loadingRooms := loadingRooms s;
     showGuestForm := showGuestForm s; form := form s |} = s.
Proof. destruct s; reflexivity. Qed.

Lemma isBefore_true (date today : Js.Date) : date < today -> Js.isBefore date today = true.
Proof. unfold Js.isBefore. intros H. apply Z.ltb_lt. exact H. Qed.

Lemma isBefore_false (date today : Js.Date) : today <= date -> Js.isBefore date today = false.
Proof. unfold Js.isBefore. intros H. apply Z.ltb_ge. exact H. Qed.

Lemma world_eta (w : World) :
  {| ui := ui w; inflight := inflight w; saving := saving w |} = w.
Proof. destruct w; reflexivity. Qed.

(** C4. A click on a day before the start of the current day changes
    nothing, whatever the state: the handler returns the state as it was
    and emits no effect (no request, no toast), and the session, with its
    requests in flight, is the same after the click. *)
Theorem past_click_ignored (today date : Js.Date) :
  date < today ->
  (forall s, handleDateClick today date s = (tt, s, []))
  /\ (forall isEmail w, step isEmail (DateClicked today date) w = (w, [])).
Proof.
  intros Hpast.
  assert (H : forall s, handleDateClick today date s = (tt, s, [])).
  { intros s. run_handler. rewrite (isBefore_true _ _ Hpast). reflexivity. }
  split; [exact H |].
  intros isEmail w. unfold step, handler. rewrite H. cbn [queries mutations].
  rewrite !app_nil_r, world_eta. reflexivity.
Qed.

Lemma past_click_ignored_witness :
  handleDateClick 100 99 initial = (tt, initial, []).
Proof. apply (proj1 (past_click_ignored 100 99 ltac:(lia))). Defined.

(** C5. While a check-out is awaited, a click on a day not after the
    check-in leaves the whole state (the check-in included) as it was and
    sends no availability request; the only effect there can be is the
    invalid-date toast, which is shown whenever the day is not in the
    past. *)
Theorem early_checkout_rejected (today date checkIn : Js.Date) (s : State) :
  checkInDate s = Some checkIn ->
  checkOutDate s = None ->
  date <= checkIn ->
  let '(_, s', effects) := handleDateClick today date s in
  s' = s
  /\ checkInDate s' = Some checkIn
  /\ selectionState s' = AwaitingCheckOut
  /\ queries effects = []
  /\ (forall e, In e effects -> e = toast InvalidDate)
  /\ (today <= date -> effects = [toast InvalidDate]).
Proof.
  intros Hin Hout Hle.
  assert (Hsel : selectionState s = AwaitingCheckOut)
    by (unfold selectionState; rewrite Hin, Hout; reflexivity).
  run_handler. rewrite Hin, Hout.
  destruct (Js.isBefore date today) eqn:Hb.
  - repeat split; auto.
    + intros e [].
    + intros Hge. rewrite (isBefore_false _ _ Hge) in Hb. discriminate.
  - apply Z.leb_le in Hle. rewrite Hle. cbn.
    repeat split; auto.
    intros e [He | []]. symmetry. exact He.
Qed.

Lemma early_checkout_rejected_witness :
  let s := {| selectedPropertyId := Some (Js.Int 1); checkInDate := Some 20;
              checkOutDate := None; availableRooms := []; selectedRoomId := None;
              loadingRooms := false; showGuestForm := false;
              form := Input.defaultValues |} in
  handleDateClick 10 15 s = (tt, s, [toast InvalidDate]).
Proof.
  intros s.
  pose proof (early_checkout_rejected 10 15 20 s eq_refl eq_refl ltac:(lia)) as H.
  destruct (handleDateClick 10 15 s) as [[[] s'] effects].
  destruct H as (Hs & _ & _ & _ & _ & Heff).
  rewrite Hs, (Heff ltac:(lia)). reflexivity.
Defined.

(** C6. Once both dates are present (a complete range, with or without a
    chosen room or an open guest form), a click on any day that is not in
    the past starts over: the machine awaits a check-out with the clicked
    day as check-in, no check-out, an empty room list, no chosen room and
    the guest form closed; nothing is emitted. *)
Theorem third_click_resets (today date checkIn checkOut : Js.Date) (s : State) :
  checkInDate s = Some checkIn ->
  checkOutDate s = Some checkOut ->
  today <= date ->
  let '(_, s', effects) := handleDateClick today date s in
  selectionState s' = AwaitingCheckOut
  /\ checkInDate s' = Some date
  /\ checkOutDate s' = None
  /\ availableRooms s' = []
  /\ selectedRoomId s' = None
  /\ showGuestForm s' = false
  /\ selectedPropertyId s' = selectedPropertyId s
  /\ effects = [].
Proof.
  intros Hin Hout Hge. run_handler.
  rewrite (isBefore_false _ _ Hge), Hin, Hout. cbn.
  repeat split; reflexivity.
Qed.

Lemma third_click_resets_witness :
  let s := {| selectedPropertyId := Some (Js.Int 1); checkInDate := Some 20;
              checkOutDate := Some 30;
              availableRooms := [ {| Schema.id := Js.Int 5; Schema.propertyId := Js.Int 1;
                                     Schema.roomNumber := "101"; Schema.roomType := "Deluxe";
                                     Schema.pricePerNight := "2500" |} ];
              selectedRoomId := Some (Js.Int 5);
              loadingRooms := false; showGuestForm := true;
              form := Input.defaultValues |} in
  selectionState s = GuestFormOpen
  /\ selectionState (snd (fst (handleDateClick 10 40 s))) = AwaitingCheckOut.
Proof.
  intros s. split; [reflexivity |].
  pose proof (third_click_resets 10 40 20 30 s eq_refl eq_refl ltac:(lia)) as H.
  destruct (handleDateClick 10 40 s) as [[[] s'] effects].
  exact (proj1 H).
Defined.

(** The values typed into the guest form survive the restart: they are
    reset only after an enquiry has been created. *)
Lemma third_click_keeps_form_values (today date : Js.Date) (s : State) :
  form (snd (fst (handleDateClick today date s))) = form s.
Proof.
  run_handler.
  destruct (Js.isBefore date today); [reflexivity |].
  destruct (checkInDate s) as [checkIn |]; [destruct (checkOutDate s) as [checkOut |] |];
    try reflexivity.
  destruct (date <=? checkIn); reflexivity.
Qed.

(** C1. From a state with no check-in and property [p] selected, clicking
    [d1] and then [d2], with [today <= d1 < d2], ends in RangeComplete with
    check-in [d1] and check-out [d2]; the two clicks together send exactly
    one availability request, the one for [(p, d1, d2)]. *)
Theorem two_clicks_complete_range (today d1 d2 : Js.Date) (p : Js.number) (s : State) :
  selectedPropertyId s = Some p ->
  checkInDate s = None ->
  today <= d1 ->
  d1 < d2 ->
  let '(_, s1, effects1) := handleDateClick today d1 s in
  let '(_, s2, effects2) := handleDateClick today d2 s1 in
  selectionState s1 = AwaitingCheckOut
  /\ selectionState s2 = RangeComplete
  /\ checkInDate s2 = Some d1
  /\ checkOutDate s2 = Some d2
  /\ queries (effects1 ++ effects2)
     = [ {| qPropertyId := Some p; qCheckIn := d1; qCheckOut := d2 |} ].
Proof.
  intros Hp Hin H1 H2. run_handler.
  rewrite (isBefore_false _ _ H1), Hin. cbn.
  rewrite (isBefore_false d2 today) by lia.
  replace (d2 <=? d1) with false by (symmetry; apply Z.leb_gt; exact H2).
  cbn. rewrite Hp. repeat split; reflexivity.
Qed.

Lemma two_clicks_complete_range_witness :
  let '(_, s1, _) := handleDateClick 5 10 (snd (fst (onValueChange (Js.Int 1) initial))) in
  let '(_, s2, effects2) := handleDateClick 5 13 s1 in
  selectionState s2 = RangeComplete
  /\ queries effects2 = [ {| qPropertyId := Some (Js.Int 1); qCheckIn := 10; qCheckOut := 13 |} ].
Proof.
  pose proof (two_clicks_complete_range 5 10 13 (Js.Int 1)
                (snd (fst (onValueChange (Js.Int 1) initial)))
                eq_refl eq_refl ltac:(lia) ltac:(lia)) as H.
  destruct (handleDateClick 5 10 (snd (fst (onValueChange (Js.Int 1) initial))))
    as [[[] s1] effects1] eqn:E1.
  destruct (handleDateClick 5 13 s1) as [[[] s2] effects2].
  destruct H as (_ & H2 & _ & _ & Hq).
  split; [exact H2 |].
  assert (effects1 = []) by (vm_compute in E1; congruence).
  subst effects1. exact Hq.
Defined.

(** C8. With the property, the check-in, the check-out or the chosen room
    unset, [onSubmit] refuses: it leaves the state as it was and its only
    effect is the missing-information toast, so no creation request is
    sent; the same holds when the submission goes through the resolver. *)
Theorem submit_refused_when_incomplete (data : Form.t) (s : State) :
  selectedPropertyId s = None \/ checkInDate s = None
  \/ checkOutDate s = None \/ selectedRoomId s = None ->
  onSubmit data s = (tt, s, [toast MissingInformation])
  /\ (forall isEmail,
        let '(_, s', effects) := handleSubmit isEmail s in
        s' = s /\ mutations effects = []).
Proof.
  intros Hunset.
  assert (H : onSubmit data s = (tt, s, [toast MissingInformation])
              /\ forall data', onSubmit data' s = (tt, s, [toast MissingInformation])).
  { run_handler.
    destruct (selectedPropertyId s) as [p |], (checkInDate s) as [checkIn |],
             (checkOutDate s) as [checkOut |], (selectedRoomId s) as [r |];
      try (split; try intros data'; reflexivity).
    destruct Hunset as [H | [H | [H | H]]]; discriminate H. }
  destruct H as [H Hall]. split; [exact H |].
  intros isEmail. unfold handleSubmit, bind, rendered.
  destruct (Zod.enquiryFormSchema isEmail (form s)) as [data' |].
  - rewrite Hall. cbn. split; reflexivity.
  - cbn. split; reflexivity.
Qed.

Lemma submit_refused_when_incomplete_witness :
  let s := {| selectedPropertyId := Some (Js.Int 1); checkInDate := Some 10;
              checkOutDate := Some 13; availableRooms := []; selectedRoomId := None;
              loadingRooms := false; showGuestForm := true;
              form := Input.defaultValues |} in
  onSubmit Scenario.guest s = (tt, s, [toast MissingInformation]).
Proof.
  intros s.
  apply (submit_refused_when_incomplete Scenario.guest s).
  right. right. right. reflexivity.
Defined.

(** *** What each handler does to the date range and to the requests *)

Section Session.

Variable isEmail : string -> bool.

Lemma onSubmit_cases (data : Form.t) (s : State) :
  exists effects,
    onSubmit data s = (tt, s, effects)
    /\ queries effects = []
    /\ (effects = [toast MissingInformation] \/ exists e, effects = [mutate e]).
Proof.
  run_handler.
  destruct (selectedPropertyId s) as [p |], (checkInDate s) as [checkIn |],
           (checkOutDate s) as [checkOut |], (selectedRoomId s) as [r |];
    try (eexists; repeat split; left; reflexivity).
  destruct (negb (Js.truthy p) || negb (Js.truthy r));
    eexists; repeat split; [left | right; eexists]; reflexivity.
Qed.

Lemma handleSubmit_cases (s : State) :
  exists effects,
    handleSubmit isEmail s = (tt, s, effects) /\ queries effects = [].
Proof.
  unfold handleSubmit, bind, rendered.
  destruct (Zod.enquiryFormSchema isEmail (form s)) as [data |].
  - destruct (onSubmit_cases data s) as (effects & -> & Hq & _).
    exists effects. split; [reflexivity | exact Hq].
  - exists [fieldErrors]. split; reflexivity.
Qed.

(** A settled request replaces the room list and lowers the flag. *)
Lemma availabilitySettled_cases (r : Response) (s : State) :
  exists effects,
    availabilitySettled r s
    = (tt,
       {| selectedPropertyId := selectedPropertyId s; checkInDate := checkInDate s;
          checkOutDate := checkOutDate s;
          availableRooms := match r with rooms_ok rooms => rooms | rooms_failed => [] end;
          selectedRoomId := selectedRoomId s; loadingRooms := false;
          showGuestForm := showGuestForm s; form := form s |},
       effects)
    /\ queries effects = [] /\ mutations effects = [].
Proof.
  destruct r as [rooms |]; run_handler.
  - destruct (List.length rooms =? 0)%nat; eexists; repeat split; reflexivity.
  - eexists; repeat split; reflexivity.
Qed.

(** The three outcomes of a date click that is not in the past. *)
Lemma handleDateClick_cases (today date : Js.Date) (s : State) :
  let '(_, s', effects) := handleDateClick today date s in
  selectedPropertyId s' = selectedPropertyId s
  /\ ((s' = s /\ queries effects = [])
      \/ (checkInDate s' = Some date /\ checkOutDate s' = None /\ queries effects = [])
      \/ (exists checkIn,
            checkInDate s = Some checkIn /\ checkOutDate s = None /\ checkIn < date
            /\ checkInDate s' = Some checkIn /\ checkOutDate s' = Some date
            /\ effects = [fetch {| qPropertyId := selectedPropertyId s;
                                   qCheckIn := checkIn; qCheckOut := date |}])).
Proof.
  run_handler.
  destruct (Js.isBefore date today).
  - split; [reflexivity | left; split; reflexivity].
  - destruct (checkInDate s) as [checkIn |] eqn:Hin.
    + destruct (checkOutDate s) as [checkOut |] eqn:Hout.
      * cbn. split; [reflexivity | right; left; repeat split; reflexivity].
      * destruct (date <=? checkIn) eqn:Hle.
        -- cbn. split; [reflexivity | left; split; reflexivity].
        -- cbn. split; [reflexivity |]. right; right. exists checkIn.
           apply Z.leb_gt in Hle. repeat split; auto.
    + cbn. split; [reflexivity | right; left; repeat split; reflexivity].
Qed.

Lemma handler_dates (e : Event) (s : State) :
  let s' := snd (fst (handler isEmail e s)) in
  (checkInDate s' = checkInDate s /\ checkOutDate s' = checkOutDate s)
  \/ checkOutDate s' = None
  \/ (exists checkIn date,
        checkInDate s' = Some checkIn /\ checkOutDate s' = Some date /\ checkIn < date).
Proof.
  destruct e as [value | today date | roomId | v | | i r | i | i message];
    cbn [handler].
  - right; left. reflexivity.
  - pose proof (handleDateClick_cases today date s) as H.
    destruct (handleDateClick today date s) as [[u s'] effects]. cbn.
    destruct H as (_ & [[-> _] | [(_ & Hout & _) | (checkIn & _ & _ & Hlt & Hin & Hout & _)]]).
    + left; split; reflexivity.
    + right; left. exact Hout.
    + right; right. exists checkIn, date. repeat split; assumption.
  - left; split; reflexivity.
  - left; split; reflexivity.
  - destruct (handleSubmit_cases s) as (effects & -> & _). left; split; reflexivity.
  - destruct (availabilitySettled_cases r s) as (effects & -> & _).
    left; split; reflexivity.
  - right; left. reflexivity.
  - left; split; reflexivity.
Qed.

Lemma handler_queries (e : Event) (s : State) (q : Query) :
  In q (queries (snd (handler isEmail e s))) ->
  qPropertyId q = selectedPropertyId s /\ exists today date, e = DateClicked today date.
Proof.
  destruct e as [value | today date | roomId | v | | i r | i | i message];
    cbn [handler].
  - intros [].
  - intros Hq. split; [| exists today, date; reflexivity].
    pose proof (handleDateClick_cases today date s) as H.
    destruct (handleDateClick today date s) as [[u s'] effects]. cbn in Hq.
    destruct H as (_ & [[_ H] | [(_ & _ & H) | (checkIn & _ & _ & _ & _ & _ & H)]]).
    + rewrite H in Hq. destruct Hq.
    + rewrite H in Hq. destruct Hq.
    + rewrite H in Hq. destruct Hq as [<- | []]. reflexivity.
  - intros [].
  - intros [].
  - destruct (handleSubmit_cases s) as (effects & -> & Hq). cbn. rewrite Hq. intros [].
  - destruct (availabilitySettled_cases r s) as (effects & -> & Hq & _).
    cbn. rewrite Hq. intros [].
  - intros [].
  - intros [].
Qed.

Lemma handler_keeps_property (e : Event) (s : State) :
  selectedPropertyId s <> None ->
  selectedPropertyId (snd (fst (handler isEmail e s))) <> None.
Proof.
  intros Hsel.
  destruct e as [value | today date | roomId | v | | i r | i | i message];
    cbn [handler]; try exact Hsel.
  - discriminate.
  - pose proof (handleDateClick_cases today date s) as H.
    destruct (handleDateClick today date s) as [[u s'] effects]. cbn.
    destruct H as [-> _]. exact Hsel.
  - destruct (handleSubmit_cases s) as (effects & -> & _). exact Hsel.
  - destruct (availabilitySettled_cases r s) as (effects & -> & _). exact Hsel.
Qed.

Lemma step_ui (e : Event) (w : World) :
  ui (fst (step isEmail e w)) = snd (fst (handler isEmail e (ui w))).
Proof.
  unfold step. destruct (handler isEmail e (ui w)) as [[u s] effects]. reflexivity.
Qed.

Lemma step_effects (e : Event) (w : World) :
  snd (step isEmail e w) = snd (handler isEmail e (ui w)).
Proof.
  unfold step. destruct (handler isEmail e (ui w)) as [[u s] effects]. reflexivity.
Qed.

Lemma In_cut {A} (i : nat) (l : list A) (x : A) : In x (cut i l) -> In x l.
Proof.
  unfold cut. intros H. apply in_app_or in H. destruct H as [H | H].
  - rewrite <- (firstn_skipn i l). apply in_or_app. left. exact H.
  - rewrite <- (firstn_skipn (S i) l). apply in_or_app. right. exact H.
Qed.

Lemma step_inflight (e : Event) (w : World) (q : Query) :
  In q (inflight (fst (step isEmail e w))) ->
  In q (inflight w) \/ In q (queries (snd (handler isEmail e (ui w)))).
Proof.
  unfold step. destruct (handler isEmail e (ui w)) as [[u s] effects]. cbn.
  intros H. apply in_app_or in H. destruct H as [H | H]; [left | right; exact H].
  destruct e; try exact H. apply In_cut in H. exact H.
Qed.

End Session.

Section Reachability.

Variable isEmail : string -> bool.

(** C7. The date-range invariant (a check-out, when both dates are
    present, is strictly after the check-in) holds in the first state, is
    preserved by the handler of every event (date click, property change,
    room choice, form edit and submission, settlement of either request),
    from any state that satisfies it, and so holds in every reachable
    state of the session. *)
Theorem date_range_invariant :
  dateRangeInvariant initial
  /\ (forall e s, dateRangeInvariant s ->
                  dateRangeInvariant (snd (fst (handler isEmail e s))))
  /\ (forall w, reachable isEmail w -> dateRangeInvariant (ui w)).
Proof.
  assert (Hstep : forall e s, dateRangeInvariant s ->
                              dateRangeInvariant (snd (fst (handler isEmail e s)))).
  { intros e s Hinv checkIn checkOut Hin Hout.
    destruct (handler_dates isEmail e s)
      as [[Ein Eout] | [Enone | (checkIn' & date & Ein & Eout & Hlt)]].
    - apply Hinv; congruence.
    - congruence.
    - congruence. }
  split; [| split].
  - intros checkIn checkOut Hin. discriminate Hin.
  - exact Hstep.
  - intros w Hreach. induction Hreach as [| w e _ IH _].
    + intros checkIn checkOut Hin. discriminate Hin.
    + rewrite step_ui. apply Hstep. exact IH.
Qed.

(** C10. In every reachable state of the session, each request in flight
    carries a defined (indeed truthy) property id, and so does each request
    that a deliverable event sends: date clicks, the only events that send
    one, are deliverable only while the calendar is rendered, that is while
    [selectedPropertyId] is truthy.  No event takes a defined
    [selectedPropertyId] back to undefined. *)
Theorem availability_query_has_property (w : World) :
  reachable isEmail w ->
  (forall q, In q (inflight w) ->
             exists p, qPropertyId q = Some p /\ Js.truthy p = true)
  /\ (forall e q, enabled e w = true ->
                  In q (queries (snd (step isEmail e w))) ->
                  exists p, qPropertyId q = Some p /\ Js.truthy p = true)
  /\ (forall e, selectedPropertyId (ui w) <> None ->
                selectedPropertyId (ui (fst (step isEmail e w))) <> None).
Proof.
  assert (Hsend : forall w e q, enabled e w = true ->
                    In q (queries (snd (handler isEmail e (ui w)))) ->
                    exists p, qPropertyId q = Some p /\ Js.truthy p = true).
  { intros w0 e q Hen Hq.
    apply handler_queries in Hq. destruct Hq as (Hp & today & date & ->).
    cbn in Hen. rewrite Hp.
    destruct (selectedPropertyId (ui w0)) as [p |]; [| discriminate Hen].
    exists p. split; [reflexivity | exact Hen]. }
  intros Hreach. split; [| split].
  - induction Hreach as [| w e Hreach IH Hen].
    + intros q [].
    + intros q Hq. apply step_inflight in Hq. destruct Hq as [Hq | Hq].
      * apply IH. exact Hq.
      * apply (Hsend w e q Hen Hq).
  - intros e q Hen Hq. rewrite step_effects in Hq. apply (Hsend w e q Hen Hq).
  - intros e Hsel. rewrite step_ui. apply handler_keeps_property. exact Hsel.
Qed.

End Reachability.

(** *** Runs of the session *)

Lemma run_reachable (isEmail : string -> bool) (es : list Event) :
  forall w w' out,
    reachable isEmail w -> run isEmail es w = Some (w', out) -> reachable isEmail w'.
Proof.
  induction es as [| e rest IH]; intros w w' out Hreach Hrun; cbn in Hrun.
  - injection Hrun as <- _. exact Hreach.
  - destruct (enabled e w) eqn:Hen; [| discriminate Hrun].
    pose proof (reachable_step isEmail w e Hreach Hen) as Hnext.
    destruct (step isEmail e w) as [w1 out1]. cbn in Hnext.
    destruct (run isEmail rest w1) as [[w2 out2] |] eqn:Hrest; [| discriminate Hrun].
    injection Hrun as <- _. apply (IH w1 w2 out2 Hnext Hrest).
Qed.

Lemma after_reachable (es : list Event) :
  run Scenario.isEmail es start <> None -> reachable Scenario.isEmail (Scenario.after es).
Proof.
  unfold Scenario.after. intros Hrun.
  destruct (run Scenario.isEmail es start) as [[w out] |] eqn:E; [| congruence].
  apply (run_reachable Scenario.isEmail es start w out (reachable_start _) E).
Qed.

Lemma date_range_invariant_witness :
  checkInDate (ui (Scenario.after Scenario.pickRange)) = Some 10
  /\ checkOutDate (ui (Scenario.after Scenario.pickRange)) = Some 13
  /\ 10 < 13.
Proof.
  split; [reflexivity | split; [reflexivity |]].
  apply (proj2 (proj2 (date_range_invariant Scenario.isEmail))
           (Scenario.after Scenario.pickRange)).
  - apply after_reachable. vm_compute. discriminate.
  - reflexivity.
  - reflexivity.
Defined.

Lemma availability_query_has_property_witness :
  inflight (Scenario.after Scenario.pickRange)
  = [ {| qPropertyId := Some (Js.Int 1); qCheckIn := 10; qCheckOut := 13 |} ]
  /\ exists p, Some (Js.Int 1) = Some p /\ Js.truthy p = true.
Proof.
  split; [reflexivity |].
  apply (proj1 (availability_query_has_property Scenario.isEmail
                  (Scenario.after Scenario.pickRange)
                  (after_reachable Scenario.pickRange
                     ltac:(vm_compute; discriminate)))
           {| qPropertyId := Some (Js.Int 1); qCheckIn := 10; qCheckOut := 13 |}).
  vm_compute. left. reflexivity.
Defined.

(** Without the render guard the handler would send the request with an
    undefined property id: the guard is what makes the assertion safe. *)
Lemma unguarded_click_sends_undefined :
  queries (snd (handleDateClick 5 13 (snd (fst (handleDateClick 5 10 initial)))))
  = [ {| qPropertyId := None; qCheckIn := 10; qCheckOut := 13 |} ].
Proof. reflexivity. Qed.

(** *** Requests in flight and the selection *)

(** C3, refuted as stated.  The range 10 to 13 of property 1 is picked and
    its request is in flight; the property is changed to 2, which empties
    the room list and supersedes the request; when the request settles,
    its rooms are put into the room list all the same.  No guard discards
    the stale result. *)
Lemma requests_unguarded_counterexample :
  ~ staleResultsDiscarded Scenario.isEmail.
Proof.
  intros Hclaim.
  specialize (Hclaim (Scenario.after Scenario.changeProperty) 0%nat
                {| qPropertyId := Some (Js.Int 1); qCheckIn := 10; qCheckOut := 13 |}
                (rooms_ok [Scenario.room5])
                (after_reachable Scenario.changeProperty ltac:(vm_compute; discriminate))).
  vm_compute in Hclaim.
  specialize (Hclaim eq_refl).
  assert (Hstale : ~ (Some (Js.Int 2) = Some (Js.Int 1)
                      /\ @None Z = Some 10 /\ @None Z = Some 13))
    by (intros [H _]; discriminate H).
  specialize (Hclaim Hstale). discriminate Hclaim.
Qed.

(** C3, as the page implements it.  While a request for the selection on
    display is in flight no click completes a range: that selection has
    both dates, so a click that is not ignored starts over and sends
    nothing.  Whenever a check-out is awaited, a click on a later day that
    is not in the past completes the range and sends a request, whatever
    (superseded) requests are still in flight and whatever the loading flag
    says.  The flag is raised by each click that sends a request and
    lowered by each settlement, and date clicks do not read it: two states
    that agree on the selection give the same selection and the same
    effects.  A settlement consults no token and no part of the state: the
    room list becomes the rooms received (empty on failure) and the flag is
    lowered, while the property, the dates, the chosen room, the form and
    its values stay as they are. *)
Theorem availability_result_applied_unguarded (isEmail : string -> bool) :
  completionsSerialized isEmail
  /\ (forall w today date checkIn,
        checkInDate (ui w) = Some checkIn -> checkOutDate (ui w) = None ->
        today <= date -> checkIn < date ->
        let w' := fst (step isEmail (DateClicked today date) w) in
        checkInDate (ui w') = Some checkIn
        /\ checkOutDate (ui w') = Some date
        /\ loadingRooms (ui w') = true
        /\ inflight w'
           = inflight w ++ [ {| qPropertyId := selectedPropertyId (ui w);
                                qCheckIn := checkIn; qCheckOut := date |} ])
  /\ (forall today date s1 s2,
        selection s1 = selection s2 ->
        selection (snd (fst (handleDateClick today date s1)))
        = selection (snd (fst (handleDateClick today date s2)))
        /\ snd (handleDateClick today date s1) = snd (handleDateClick today date s2))
  /\ (forall today date s q,
        In q (queries (snd (handleDateClick today date s))) ->
        loadingRooms (snd (fst (handleDateClick today date s))) = true)
  /\ (forall w i r,
        let s := ui w in
        let s' := ui (fst (step isEmail (AvailabilitySettled i r) w)) in
        availableRooms s' = match r with rooms_ok rooms => rooms | rooms_failed => [] end
        /\ loadingRooms s' = false
        /\ selectedPropertyId s' = selectedPropertyId s
        /\ checkInDate s' = checkInDate s
        /\ checkOutDate s' = checkOutDate s
        /\ selectedRoomId s' = selectedRoomId s
        /\ showGuestForm s' = showGuestForm s
        /\ form s' = form s).
Proof.
  split; [| split; [| split; [| split]]].
  - intros w today date q _ (_ & Hin & Hout).
    rewrite step_effects, step_ui. cbn [handler].
    pose proof (handleDateClick_cases today date (ui w)) as H.
    destruct (handleDateClick today date (ui w)) as [[u s'] effects]. cbn.
    destruct H as (_ & [[-> Hq] | [(_ & Hnone & Hq) | (checkIn & _ & Habs & _)]]).
    + split; [exact Hq | left; reflexivity].
    + split; [exact Hq | right; exact Hnone].
    + congruence.
  - intros w today date checkIn Hin Hout Hge Hlt w'. subst w'.
    unfold step, handler. run_handler. rewrite Hin, Hout.
    rewrite (isBefore_false date today Hge).
    replace (date <=? checkIn) with false by (symmetry; apply Z.leb_gt; exact Hlt).
    cbn. rewrite Hin. repeat split; reflexivity.
  - intros today date s1 s2 Hsel.
    destruct s1 as [p1 in1 out1 rooms1 room1 loading1 open1 form1],
             s2 as [p2 in2 out2 rooms2 room2 loading2 open2 form2].
    unfold selection in Hsel. cbn in Hsel.
    injection Hsel as -> -> -> -> -> ->.
    run_handler. unfold selection.
    destruct (Js.isBefore date today); [split; reflexivity |].
    destruct in2 as [checkIn |]; [destruct out2 as [checkOut |] |];
      try (split; reflexivity).
    destruct (date <=? checkIn); split; reflexivity.
  - intros today date s q. run_handler.
    destruct (Js.isBefore date today); [intros [] |].
    destruct (checkInDate s) as [checkIn |]; [destruct (checkOutDate s) as [checkOut |] |].
    + intros [].
    + destruct (date <=? checkIn); cbn; [intros [] | reflexivity].
    + intros [].
  - intros w i r s s'. subst s s'. rewrite step_ui. cbn [handler].
    destruct (availabilitySettled_cases r (ui w)) as (effects & -> & _).
    cbn. repeat split; reflexivity.
Qed.

Lemma availability_result_applied_unguarded_witness :
  availableRooms
    (ui (fst (step Scenario.isEmail (AvailabilitySettled 0 (rooms_ok [Scenario.room5]))
                (Scenario.after Scenario.changeProperty))))
  = [Scenario.room5]
  /\ selectedPropertyId (ui (Scenario.after Scenario.changeProperty)) = Some (Js.Int 2)
  /\ inflight (fst (step Scenario.isEmail (DateClicked 5 25)
                      (Scenario.after Scenario.restartRange)))
     = [ {| qPropertyId := Some (Js.Int 1); qCheckIn := 10; qCheckOut := 13 |};
         {| qPropertyId := Some (Js.Int 1); qCheckIn := 20; qCheckOut := 25 |} ].
Proof.
  split; [| split; [reflexivity |]].
  - apply (proj2 (proj2 (proj2 (proj2
             (availability_result_applied_unguarded Scenario.isEmail))))
             (Scenario.after Scenario.changeProperty) 0%nat (rooms_ok [Scenario.room5])).
  - apply (proj1 (proj2 (availability_result_applied_unguarded Scenario.isEmail))
             (Scenario.after Scenario.restartRange) 5 25 20
             eq_refl eq_refl ltac:(lia) ltac:(lia)).
Defined.

(** *** The occupancy calendar *)

Lemma strict_eq_Int (a : Js.number) (z : Z) : Js.strict_eq a (Js.Int z) = true <-> a = Js.Int z.
Proof.
  destruct a as [| x]; cbn.
  - split; discriminate.
  - rewrite Z.eqb_eq. split; [intros -> | intros H; injection H as ->]; reflexivity.
Qed.

Lemma truthy_Int (z : Z) : z <> 0 -> Js.truthy (Js.Int z) = true.
Proof. intros H. cbn. apply Z.eqb_neq in H. rewrite H. reflexivity. Qed.

(** The grid of the occupancy calendar is on display exactly for a
    non-zero property id, and without it no booking is taken into account. *)
Lemma calendarRendered_Int (p : Z) :
  RoomCalendar.calendarRendered (Some (Js.Int p)) = true <-> p <> 0.
Proof.
  unfold RoomCalendar.calendarRendered. cbn. rewrite negb_true_iff. apply Z.eqb_neq.
Qed.

Lemma not_rendered_not_occupied (sel : option Js.number) (bookings : list Booking.t)
      (roomId : Js.number) (date : Js.Date) :
  RoomCalendar.calendarRendered sel = false ->
  RoomCalendar.isRoomOccupied sel bookings roomId date = false.
Proof.
  unfold RoomCalendar.calendarRendered, RoomCalendar.isRoomOccupied,
    RoomCalendar.propertyBookings.
  destruct sel as [n |]; cbn; [| reflexivity].
  intros ->. reflexivity.
Qed.

(** Occupancy of room [r] of the selected property [p] on [date], in terms
    of the bookings as fetched. *)
Lemma isRoomOccupied_iff (p r : Z) (bookings : list Booking.t) (date : Js.Date) :
  p <> 0 ->
  (RoomCalendar.isRoomOccupied (Some (Js.Int p)) bookings (Js.Int r) date = true
   <-> exists b,
         In b bookings
         /\ Booking.propertyId b = Js.Int p
         /\ (Booking.status b = "confirmed"%string \/ Booking.status b = "checked-in"%string)
         /\ Booking.roomId b = Js.Int r
         /\ Booking.checkInDate b <= date < Booking.checkOutDate b).
Proof.
  intros Hp. unfold RoomCalendar.isRoomOccupied, RoomCalendar.propertyBookings.
  rewrite (truthy_Int p Hp). cbn [negb].
  rewrite existsb_exists. split.
  - intros (b & Hb & Htest). apply filter_In in Hb. destruct Hb as [Hb Hkeep].
    apply andb_true_iff in Hkeep. destruct Hkeep as [Hprop Hstatus].
    apply strict_eq_Int in Hprop. apply orb_true_iff in Hstatus.
    destruct (Js.strict_eq (Booking.roomId b) (Js.Int r)) eqn:Hroom;
      [| discriminate Htest].
    apply strict_eq_Int in Hroom. cbn in Htest.
    apply andb_true_iff in Htest. destruct Htest as [Hin Hout].
    apply Z.leb_le in Hin. apply Z.ltb_lt in Hout.
    exists b. repeat split; try assumption.
    destruct Hstatus as [H | H]; apply String.eqb_eq in H; [left | right]; exact H.
  - intros (b & Hb & Hprop & Hstatus & Hroom & Hin & Hout).
    exists b. split.
    + apply filter_In. split; [exact Hb |].
      apply andb_true_iff. split; [apply strict_eq_Int; exact Hprop |].
      apply orb_true_iff.
      destruct Hstatus as [H | H]; [left | right]; apply String.eqb_eq; exact H.
    + apply strict_eq_Int in Hroom. rewrite Hroom. cbn.
      apply andb_true_iff. split; [apply Z.leb_le | apply Z.ltb_lt]; assumption.
Qed.

(** C2. For a room of the selected property, a day is occupied exactly
    when one of the property's confirmed or checked-in bookings for that
    room has [checkIn <= day < checkOut] (when the bookings of a room all
    carry the room's property, the filter on the property can be left
    unsaid); so the day of check-in is occupied and the day of check-out
    is free.  Hence a stay
    [[checkIn, checkOut)] meets an occupied day of a reservation
    [[otherCheckIn, otherCheckOut)] exactly when [otherCheckIn < checkOut]
    and [checkIn < otherCheckOut].  With the reservation from May 10 to
    May 15 of 2024, a stay from May 12 to May 20 meets an occupied day, and
    the adjacent stays from May 15 to May 20 and from May 1 to May 10 meet
    none. *)
Theorem occupancy_half_open (p r : Z) :
  p <> 0 ->
  (forall bookings date,
      RoomCalendar.isRoomOccupied (Some (Js.Int p)) bookings (Js.Int r) date = true
      <-> exists b,
            In b bookings
            /\ Booking.propertyId b = Js.Int p
            /\ (Booking.status b = "confirmed"%string
                \/ Booking.status b = "checked-in"%string)
            /\ Booking.roomId b = Js.Int r
            /\ Booking.checkInDate b <= date < Booking.checkOutDate b)
  /\ (forall bookings date,
        (forall b, In b bookings -> Booking.roomId b = Js.Int r ->
                   Booking.propertyId b = Js.Int p) ->
        RoomCalendar.isRoomOccupied (Some (Js.Int p)) bookings (Js.Int r) date = true
        <-> exists b,
              In b bookings
              /\ (Booking.status b = "confirmed"%string
                  \/ Booking.status b = "checked-in"%string)
              /\ Booking.roomId b = Js.Int r
              /\ Booking.checkInDate b <= date < Booking.checkOutDate b)
  /\ (forall status otherCheckIn otherCheckOut,
        (status = "confirmed"%string \/ status = "checked-in"%string) ->
        otherCheckIn < otherCheckOut ->
        let bookings :=
          [ {| Booking.propertyId := Js.Int p; Booking.roomId := Js.Int r;
               Booking.status := status;
               Booking.checkInDate := otherCheckIn;
               Booking.checkOutDate := otherCheckOut |} ] in
        RoomCalendar.isRoomOccupied (Some (Js.Int p)) bookings (Js.Int r) otherCheckIn = true
        /\ RoomCalendar.isRoomOccupied (Some (Js.Int p)) bookings (Js.Int r) otherCheckOut
           = false
        /\ (forall checkIn checkOut,
              checkIn < checkOut ->
              RoomCalendar.stayMeetsOccupancy (Some (Js.Int p)) bookings (Js.Int r)
                checkIn checkOut
              <-> otherCheckIn < checkOut /\ checkIn < otherCheckOut))
  /\ (let bookings := [RoomCalendar.reservation_10_15 (Js.Int p) (Js.Int r)] in
      RoomCalendar.stayMeetsOccupancy (Some (Js.Int p)) bookings (Js.Int r)
        (RoomCalendar.may 12) (RoomCalendar.may 20)
      /\ ~ RoomCalendar.stayMeetsOccupancy (Some (Js.Int p)) bookings (Js.Int r)
             (RoomCalendar.may 15) (RoomCalendar.may 20)
      /\ ~ RoomCalendar.stayMeetsOccupancy (Some (Js.Int p)) bookings (Js.Int r)
             (RoomCalendar.may 1) (RoomCalendar.may 10)).
Proof.
  intros Hp.
  assert (Hone : forall status otherCheckIn otherCheckOut date,
             (status = "confirmed"%string \/ status = "checked-in"%string) ->
             RoomCalendar.isRoomOccupied (Some (Js.Int p))
               [ {| Booking.propertyId := Js.Int p; Booking.roomId := Js.Int r;
                    Booking.status := status;
                    Booking.checkInDate := otherCheckIn;
                    Booking.checkOutDate := otherCheckOut |} ] (Js.Int r) date = true
             <-> otherCheckIn <= date < otherCheckOut).
  { intros status otherCheckIn otherCheckOut date Hstatus.
    rewrite (isRoomOccupied_iff p r _ _ Hp). split.
    - intros (b & [<- | []] & _ & _ & _ & Hrange). exact Hrange.
    - intros Hrange. eexists. split; [left; reflexivity |].
      cbn. repeat split; auto; lia. }
  assert (Hstay : forall status otherCheckIn otherCheckOut checkIn checkOut,
             (status = "confirmed"%string \/ status = "checked-in"%string) ->
             otherCheckIn < otherCheckOut -> checkIn < checkOut ->
             RoomCalendar.stayMeetsOccupancy (Some (Js.Int p))
               [ {| Booking.propertyId := Js.Int p; Booking.roomId := Js.Int r;
                    Booking.status := status;
                    Booking.checkInDate := otherCheckIn;
                    Booking.checkOutDate := otherCheckOut |} ] (Js.Int r) checkIn checkOut
             <-> otherCheckIn < checkOut /\ checkIn < otherCheckOut).
  { intros status otherCheckIn otherCheckOut checkIn checkOut Hstatus Hres Hlt.
    unfold RoomCalendar.stayMeetsOccupancy. split.
    - intros (d & Hd & Hocc). apply (Hone _ _ _ _ Hstatus) in Hocc. lia.
    - intros [H1 H2]. exists (Z.max checkIn otherCheckIn). split; [lia |].
      apply (Hone _ _ _ _ Hstatus). lia. }
  split; [| split; [| split]].
  - intros bookings date. apply isRoomOccupied_iff. exact Hp.
  - intros bookings date Hown. rewrite (isRoomOccupied_iff p r _ _ Hp). split.
    + intros (b & Hb & _ & Hstatus & Hroom & Hrange). exists b. repeat split; tauto.
    + intros (b & Hb & Hstatus & Hroom & Hrange). exists b.
      repeat split; try tauto. apply Hown; assumption.
  - intros status otherCheckIn otherCheckOut Hstatus Hres bookings. subst bookings.
    split; [| split].
    + apply (Hone _ _ _ _ Hstatus). lia.
    + apply not_true_is_false. intros Hocc. apply (Hone _ _ _ _ Hstatus) in Hocc. lia.
    + intros checkIn checkOut Hlt. apply Hstay; assumption.
  - intros bookings. subst bookings. unfold RoomCalendar.reservation_10_15.
    assert (Hc : "confirmed"%string = "confirmed"%string
                 \/ "confirmed"%string = "checked-in"%string) by (left; reflexivity).
    assert (Hres : RoomCalendar.may 10 < RoomCalendar.may 15)
      by (unfold RoomCalendar.may, RoomCalendar.day_ms; lia).
    split; [| split].
    + apply (Hstay _ _ _ _ _ Hc Hres);
        unfold RoomCalendar.may, RoomCalendar.day_ms; lia.
    + intros H. apply (Hstay _ _ _ _ _ Hc Hres) in H;
        unfold RoomCalendar.may, RoomCalendar.day_ms in *; lia.
    + intros H. apply (Hstay _ _ _ _ _ Hc Hres) in H;
        unfold RoomCalendar.may, RoomCalendar.day_ms in *; lia.
Qed.

Lemma occupancy_half_open_witness :
  RoomCalendar.isRoomOccupied (Some (Js.Int 1))
    [RoomCalendar.reservation_10_15 (Js.Int 1) (Js.Int 5)] (Js.Int 5)
    (RoomCalendar.may 15) = false
  /\ RoomCalendar.isRoomOccupied (Some (Js.Int 1))
       [RoomCalendar.reservation_10_15 (Js.Int 1) (Js.Int 5)] (Js.Int 5)
       (RoomCalendar.may 10) = true.
Proof.
  pose proof (proj1 (proj2 (proj2 (occupancy_half_open 1 5 ltac:(lia))))
                "confirmed"%string (RoomCalendar.may 10) (RoomCalendar.may 15)
                (or_introl eq_refl)
                ltac:(unfold RoomCalendar.may, RoomCalendar.day_ms; lia)) as H.
  cbn zeta in H. destruct H as (Hin & Hout & _). split; [exact Hout | exact Hin].
Defined.

(** *** The guest form schema *)

Lemma isInteger_iff (q : Q) : Js.isInteger q = true <-> exists z, (q == inject_Z z)%Q.
Proof.
  unfold Js.isInteger. rewrite Qeq_bool_iff. split.
  - intros H. exists (Qfloor q). exact H.
  - intros [z Hz]. rewrite Hz at 2. rewrite Qfloor_Z. exact Hz.
Qed.

Lemma guests_accepts (c : Js.coerced) :
  Zod.guests c <> None
  <-> exists q, c = Js.CNum q /\ (exists z, (q == inject_Z z)%Q) /\ (1 <= q)%Q.
Proof.
  destruct c as [| q]; cbn.
  - split; [congruence | intros (q & H & _); discriminate H].
  - destruct (Js.isInteger q) eqn:Hint; destruct (Qle_bool 1 q) eqn:Hle; cbn; split;
      try congruence.
    + intros _. exists q. split; [reflexivity |]. split.
      * apply isInteger_iff. exact Hint.
      * apply Qle_bool_iff. exact Hle.
    + intros (q' & Hq & _ & H). injection Hq as <-.
      apply Qle_bool_iff in H. congruence.
    + intros (q' & Hq & H & _). injection Hq as <-.
      apply isInteger_iff in H. congruence.
    + intros (q' & Hq & H & _). injection Hq as <-.
      apply isInteger_iff in H. congruence.
Qed.

Lemma amount_accepts (o : option Js.coerced) :
  Zod.amount o <> None
  <-> (o = None \/ exists q, o = Some (Js.CNum q) /\ (0 <= q)%Q).
Proof.
  destruct o as [[| q] |]; cbn.
  - split; [congruence | intros [H | (q & H & _)]; discriminate H].
  - destruct (Qle_bool 0 q) eqn:Hle; split; try congruence.
    + intros _. right. exists q. split; [reflexivity | apply Qle_bool_iff; exact Hle].
    + intros [H | (q' & Hq & H)]; [discriminate H |].
      injection Hq as <-. apply Qle_bool_iff in H. congruence.
  - split; [intros _; left; reflexivity | congruence].
Qed.

Lemma email_accepts (isEmail : string -> bool) (o : option string) :
  Zod.email isEmail o <> None
  <-> (o = None \/ exists s, o = Some s /\ (isEmail s = true \/ s = ""%string)).
Proof.
  destruct o as [s |]; cbn.
  - destruct (isEmail s || String.eqb s "") eqn:H; split; try congruence.
    + intros _. right. exists s. split; [reflexivity |].
      apply orb_true_iff in H. destruct H as [H | H]; [left; exact H |].
      right. apply String.eqb_eq. exact H.
    + intros [Hn | (s' & Hs & Hok)]; [discriminate Hn |].
      injection Hs as <-. apply orb_false_iff in H. destruct H as [H1 H2].
      destruct Hok as [Hok | Hok]; [congruence |].
      apply String.eqb_eq in Hok. congruence.
  - split; [intros _; left; reflexivity | congruence].
Qed.

(** A name of one character outside ASCII has length 1, whatever the
    number of its bytes, and is rejected. *)
Lemma one_character_name_rejected (isEmail : string -> bool) :
  String.length Samples.oneCharacter = 3%nat
  /\ Js.length Samples.oneCharacter = 1%nat
  /\ Zod.enquiryFormSchema isEmail Samples.oneCharacterName = None.
Proof. repeat split; reflexivity. Qed.

(** X15. The schema accepts the values of the form exactly when the
    [length] of the name (its number of UTF-16 code units) is at least 2,
    the [length] of the phone number at least 10, the e-mail is undefined,
    empty or matches the e-mail pattern, the number of guests is an integer
    not below 1 (not NaN), and the quoted price and the advance are each
    undefined or a number not below 0 (not NaN). *)
Lemma enquiryFormSchema_accepts (isEmail : string -> bool) (v : Input.t) :
  Zod.enquiryFormSchema isEmail v <> None
  <-> (2 <= Js.length (Input.guestName v))%nat
      /\ (10 <= Js.length (Input.guestPhone v))%nat
      /\ (Input.guestEmail v = None
          \/ exists s, Input.guestEmail v = Some s /\ (isEmail s = true \/ s = ""%string))
      /\ (exists q, Input.numberOfGuests v = Js.CNum q
                    /\ (exists z, (q == inject_Z z)%Q) /\ (1 <= q)%Q)
      /\ (Input.priceQuoted v = None
          \/ exists q, Input.priceQuoted v = Some (Js.CNum q) /\ (0 <= q)%Q)
      /\ (Input.advanceAmount v = None
          \/ exists q, Input.advanceAmount v = Some (Js.CNum q) /\ (0 <= q)%Q).
Proof.
  rewrite <- (email_accepts isEmail), <- guests_accepts, <- !amount_accepts.
  unfold Zod.enquiryFormSchema, Zod.string_min.
  destruct (2 <=? Js.length (Input.guestName v))%nat eqn:Hname; cbn [negb].
  2:{ apply Nat.leb_gt in Hname. split; [congruence | intros [H _]; lia]. }
  destruct (10 <=? Js.length (Input.guestPhone v))%nat eqn:Hphone; cbn [negb].
  2:{ apply Nat.leb_gt in Hphone. split; [congruence | intros (_ & H & _); lia]. }
  apply Nat.leb_le in Hname, Hphone.
  destruct (Zod.email isEmail (Input.guestEmail v)),
           (Zod.guests (Input.numberOfGuests v)),
           (Zod.amount (Input.priceQuoted v)),
           (Zod.amount (Input.advanceAmount v));
    split; try congruence;
    try (intros _; repeat split; try assumption; congruence);
    intros (_ & _ & H1 & H2 & H3 & H4); congruence.
Qed.

(** C9 (phone number).  The schema accepts a guest whose phone number has
    ten characters of which only nine are digits: the rule it applies is
    the length of the string, although its own message asks for at least
    ten digits. *)
Theorem phone_length_not_digits (isEmail : string -> bool) :
  Zod.enquiryFormSchema isEmail Scenario.nineDigits
  = Some {| Form.guestName := "Asha"; Form.guestPhone := "+123456789";
            Form.guestEmail := Some ""%string; Form.numberOfGuests := 2%Q;
            Form.priceQuoted := None; Form.advanceAmount := None;
            Form.specialRequests := Some ""%string |}
  /\ String.length (Input.guestPhone Scenario.nineDigits) = 10%nat
  /\ Zod.countDigits (Input.guestPhone Scenario.nineDigits) = 9%nat.
Proof.
  split; [| split; reflexivity].
  unfold Zod.enquiryFormSchema, Scenario.nineDigits. cbn.
  rewrite orb_true_r. reflexivity.
Qed.

(** * Further properties of the New Enquiry page *)

Section Coherence.

Variable isEmail : string -> bool.

Lemma coherent_step (e : Event) (w : World) :
  EnquiryView.coherent (ui w) -> enabled e w = true ->
  EnquiryView.coherent (ui (fst (step isEmail e w))).
Proof.
  unfold EnquiryView.coherent. intros (I1 & I2 & I3 & I4) Hen.
  rewrite step_ui.
  destruct e as [value | today date | roomId | v | | i r | i | i message];
    cbn [handler].
  - run_handler. repeat split; try congruence; try discriminate.
  - cbn in Hen. run_handler.
    destruct (Js.isBefore date today); [cbn; tauto |].
    destruct (checkInDate (ui w)) as [checkIn |] eqn:Hin;
      [destruct (checkOutDate (ui w)) as [checkOut |] eqn:Hout |].
    + cbn. repeat split; try congruence; try discriminate.
    + destruct (date <=? checkIn).
      * cbn. rewrite Hin, Hout. tauto.
      * cbn. repeat split; try congruence; try tauto.
    + cbn. repeat split; try congruence; try discriminate.
  - cbn in Hen. run_handler.
    destruct (checkOutDate (ui w)) as [checkOut |] eqn:Hout; [| discriminate Hen].
    repeat split; try congruence; try tauto; try discriminate.
  - run_handler. tauto.
  - destruct (handleSubmit_cases isEmail (ui w)) as (effects & -> & _). cbn. tauto.
  - destruct (availabilitySettled_cases r (ui w)) as (effects & -> & _). cbn. tauto.
  - run_handler. repeat split; try congruence; try discriminate.
  - run_handler. tauto.
Qed.

Lemma coherent_initial : EnquiryView.coherent initial.
Proof.
  unfold EnquiryView.coherent. cbn. repeat split; try congruence; try discriminate.
Qed.

Lemma reachable_coherent (w : World) : reachable isEmail w -> EnquiryView.coherent (ui w).
Proof.
  intros Hreach. induction Hreach as [| w e _ IH Hen].
  - exact coherent_initial.
  - apply coherent_step; assumption.
Qed.

Lemma reachable_dates_ordered (w : World) :
  reachable isEmail w -> dateRangeInvariant (ui w).
Proof.
  intros Hreach. induction Hreach as [| w e _ IH _].
  - intros checkIn checkOut Hin. discriminate Hin.
  - rewrite step_ui. intros checkIn checkOut Hin Hout.
    destruct (handler_dates isEmail e (ui w))
      as [[Ein Eout] | [Enone | (checkIn' & date & Ein & Eout & Hlt)]].
    + apply IH; congruence.
    + congruence.
    + congruence.
Qed.

(** X1. In every reachable state of the page the guest form is open
    exactly when a room is chosen, so the state "room chosen, form not yet
    open" never occurs; an open form has a check-out, a check-out has a
    check-in, and a check-in has a truthy selected property. *)
Theorem form_open_iff_room_chosen (w : World) :
  reachable isEmail w ->
  EnquiryView.coherent (ui w)
  /\ selectionState (ui w) <> RoomChosen
  /\ (selectionState (ui w) = GuestFormOpen <-> showGuestForm (ui w) = true).
Proof.
  intros Hreach. pose proof (reachable_coherent w Hreach) as Hco.
  split; [exact Hco |].
  destruct Hco as (I1 & I2 & I3 & I4). unfold selectionState.
  destruct (checkInDate (ui w)) as [checkIn |] eqn:Hin.
  - destruct (checkOutDate (ui w)) as [checkOut |] eqn:Hout.
    + destruct (showGuestForm (ui w)) eqn:Hform.
      * split; [discriminate | tauto].
      * destruct (selectedRoomId (ui w)) as [r |] eqn:Hroom.
        -- assert (false = true) by (apply I3; discriminate). discriminate.
        -- split; [discriminate | split; discriminate].
    + split; [discriminate |]. split; [discriminate |].
      intros H. apply I4 in H. congruence.
  - split; [discriminate |]. split; [discriminate |].
    intros H. apply I4 in H. apply I1 in H. congruence.
Qed.

End Coherence.

Lemma form_open_iff_room_chosen_witness :
  selectionState (ui (Scenario.after Scenario.pickRange)) <> RoomChosen.
Proof.
  apply (proj1 (proj2 (form_open_iff_room_chosen Scenario.isEmail
                         (Scenario.after Scenario.pickRange)
                         (after_reachable Scenario.pickRange
                            ltac:(vm_compute; discriminate))))).
Defined.

Section Submission.

Variable isEmail : string -> bool.


End Submission.


(** *** The loading flag and the settlement of the availability request *)

Section Loading.

Variable isEmail : string -> bool.

Lemma handler_loading (e : Event) (s : State) :
  loadingRooms (snd (fst (handler isEmail e s))) = false
  \/ queries (snd (handler isEmail e s)) <> []
  \/ (loadingRooms (snd (fst (handler isEmail e s))) = loadingRooms s
      /\ forall i r, e <> AvailabilitySettled i r).
Proof.
  destruct e as [value | today date | roomId | v | | i r | i | i message];
    cbn [handler].
  - right; right. split; [reflexivity | discriminate].
  - run_handler.
    destruct (Js.isBefore date today);
      [right; right; split; [reflexivity | discriminate] |].
    destruct (checkInDate s) as [checkIn |]; [destruct (checkOutDate s) as [checkOut |] |];
      try (right; right; split; [reflexivity | discriminate]).
    destruct (date <=? checkIn);
      [right; right; split; [reflexivity | discriminate] |].
    right; left. cbn. discriminate.
  - right; right. split; [reflexivity | discriminate].
  - right; right. split; [reflexivity | discriminate].
  - destruct (handleSubmit_cases isEmail s) as (effects & -> & _).
    right; right. split; [reflexivity | discriminate].
  - destruct (availabilitySettled_cases r s) as (effects & -> & _). left. reflexivity.
  - right; right. split; [reflexivity | discriminate].
  - right; right. split; [reflexivity | discriminate].
Qed.

(** X3. In every reachable state a raised loading flag means that an
    availability request is in flight.  The flag says no more than that:
    it is lowered by the first settlement, so with two requests sent one
    after the other it is down while the second is still in flight. *)
Theorem loading_implies_in_flight :
  (forall w, reachable isEmail w -> loadingRooms (ui w) = true -> inflight w <> [])
  /\ (exists w, reachable isEmail w /\ loadingRooms (ui w) = false /\ inflight w <> []).
Proof.
  split.
  - intros w Hreach. induction Hreach as [| w e _ IH _].
    + discriminate.
    + rewrite step_ui. intros Hload.
      destruct (handler_loading e (ui w)) as [Hoff | [Hsent | [Hsame Hnot]]].
      * congruence.
      * unfold step. destruct (handler isEmail e (ui w)) as [[u s] effects].
        cbn in *. intros Happ. apply app_eq_nil in Happ. tauto.
      * rewrite Hsame in Hload. specialize (IH Hload).
        unfold step. destruct (handler isEmail e (ui w)) as [[u s] effects].
        cbn. intros Happ. apply app_eq_nil in Happ. destruct Happ as [Happ _].
        destruct e; try (apply IH; exact Happ). exfalso. eapply Hnot. reflexivity.
  - destruct (run isEmail Samples.firstOfTwoSettled start) as [[w out] |] eqn:Hrun.
    + exists w. split.
      * apply (run_reachable isEmail _ _ _ _ (reachable_start isEmail) Hrun).
      * vm_compute in Hrun. injection Hrun as <- _. split; [reflexivity | discriminate].
    + vm_compute in Hrun. discriminate Hrun.
Qed.

End Loading.

Lemma loading_implies_in_flight_witness :
  inflight (Scenario.after Scenario.pickRange) <> [].
Proof.
  apply (proj1 (loading_implies_in_flight Scenario.isEmail)
           (Scenario.after Scenario.pickRange)).
  - apply after_reachable. vm_compute. discriminate.
  - vm_compute. reflexivity.
Defined.

Lemma same_refl (n : Js.number) : Js.same n n = true.
Proof. destruct n as [| z]; cbn; [reflexivity | apply Z.eqb_refl]. Qed.

(** X4. The settlement of an availability request shows exactly one toast
    and sends nothing: "No Rooms Available" for an empty list, "Rooms
    Found!" with the number of rooms otherwise, an error for a failed
    request.  The settled request leaves the list of those in flight.
    After an empty or failed result no room button is on display; after a
    non-empty one, every room received can be chosen as long as the
    check-out is still set. *)
Theorem settlement_outcome (isEmail : string -> bool) (w : World) (i : nat) (r : Response) :
  let w' := fst (step isEmail (AvailabilitySettled i r) w) in
  snd (step isEmail (AvailabilitySettled i r) w)
  = [toast match r with
           | rooms_ok [] => NoRoomsAvailable
           | rooms_ok rooms => RoomsFound (List.length rooms)
           | rooms_failed => AvailabilityError
           end]
  /\ inflight w' = cut i (inflight w)
  /\ saving w' = saving w
  /\ (r = rooms_failed \/ r = rooms_ok [] ->
      forall roomId, enabled (RoomClicked roomId) w' = false)
  /\ (forall rooms room,
        r = rooms_ok rooms -> In room rooms -> checkOutDate (ui w) <> None ->
        enabled (RoomClicked (Schema.id room)) w' = true).
Proof.
  intros w'. subst w'.
  assert (Hui : ui (fst (step isEmail (AvailabilitySettled i r) w))
                = snd (fst (availabilitySettled r (ui w)))) by apply step_ui.
  destruct (availabilitySettled_cases r (ui w)) as (effects & Heq & Hq & Hm).
  rewrite Heq in Hui. cbn [fst snd] in Hui.
  split; [| split; [| split; [| split]]].
  - rewrite step_effects. cbn [handler].
    destruct r as [[| room rooms] |]; reflexivity.
  - unfold step, handler. rewrite Heq. cbn. rewrite Hq. apply app_nil_r.
  - unfold step, handler. rewrite Heq. cbn. rewrite Hm. apply app_nil_r.
  - intros Hempty roomId. unfold enabled. rewrite Hui. cbn.
    destruct (checkOutDate (ui w)); [| reflexivity].
    destruct Hempty as [-> | ->]; reflexivity.
  - intros rooms room -> Hin Hout. unfold enabled. rewrite Hui. cbn.
    destruct (checkOutDate (ui w)) as [checkOut |]; [| congruence].
    apply existsb_exists. exists room. split; [exact Hin | apply same_refl].
Qed.

(** X5. A change of property resets the selection whatever the state was
    (no dates, no rooms, no chosen room, form closed, nothing sent), keeps
    the values typed into the form, and is what the next request is for:
    two clicks [today <= d1 < d2] after it send the one request
    [(value, d1, d2)], even if requests for the old property are still in
    flight, which stay in flight. *)
Theorem property_change_resets (isEmail : string -> bool) (w : World) (value : Js.number)
        (today d1 d2 : Js.Date) :
  today <= d1 -> d1 < d2 ->
  let w0 := fst (step isEmail (PropertyChanged value) w) in
  let w2 := fst (step isEmail (DateClicked today d2)
                   (fst (step isEmail (DateClicked today d1) w0))) in
  step isEmail (PropertyChanged value) w
  = ({| ui := {| selectedPropertyId := Some value; checkInDate := None;
                 checkOutDate := None; availableRooms := []; selectedRoomId := None;
                 loadingRooms := loadingRooms (ui w); showGuestForm := false;
                 form := form (ui w) |};
        inflight := inflight w; saving := saving w |}, [])
  /\ selectionState (ui w0) = NoCheckIn
  /\ selectionState (ui w2) = RangeComplete
  /\ inflight w2
     = inflight w ++ [ {| qPropertyId := Some value; qCheckIn := d1; qCheckOut := d2 |} ].
Proof.
  intros H1 H2 w0 w2.
  assert (Hstep : step isEmail (PropertyChanged value) w
                  = ({| ui := {| selectedPropertyId := Some value; checkInDate := None;
                                 checkOutDate := None; availableRooms := [];
                                 selectedRoomId := None;
                                 loadingRooms := loadingRooms (ui w);
                                 showGuestForm := false; form := form (ui w) |};
                        inflight := inflight w; saving := saving w |}, [])).
  { unfold step, handler. run_handler. cbn. rewrite !app_nil_r. reflexivity. }
  subst w2 w0. rewrite Hstep. cbn [fst].
  split; [reflexivity | split; [reflexivity |]].
  unfold step, handler. run_handler.
  rewrite (isBefore_false d1 today H1). cbn.
  rewrite (isBefore_false d2 today) by lia.
  replace (d2 <=? d1) with false by (symmetry; apply Z.leb_gt; exact H2).
  cbn. rewrite !app_nil_r. split; reflexivity.
Qed.

Lemma property_change_resets_witness :
  inflight
    (fst (step Scenario.isEmail (DateClicked 5 30)
            (fst (step Scenario.isEmail (DateClicked 5 20)
                    (fst (step Scenario.isEmail (PropertyChanged (Js.Int 2))
                            (Scenario.after Scenario.pickRange)))))))
  = inflight (Scenario.after Scenario.pickRange)
    ++ [ {| qPropertyId := Some (Js.Int 2); qCheckIn := 20; qCheckOut := 30 |} ].
Proof.
  apply (property_change_resets Scenario.isEmail (Scenario.after Scenario.pickRange)
           (Js.Int 2) 5 20 30 ltac:(lia) ltac:(lia)).
Defined.

(** *** From the choice of a property to the saved enquiry *)

Section Flow.

Variable isEmail : string -> bool.

Lemma run_step (e : Event) (es : list Event) (w w1 : World) (out1 : list Effect) :
  enabled e w = true ->
  step isEmail e w = (w1, out1) ->
  run isEmail (e :: es) w
  = match run isEmail es w1 with
    | Some (w2, out2) => Some (w2, out1 ++ out2)
    | None => None
    end.
Proof. intros Hen Hstep. cbn [run]. rewrite Hen, Hstep. reflexivity. Qed.

(** X6. A whole enquiry goes through: with a truthy property, clicks
    [today <= d1 < d2], a received list that contains a room with a truthy
    id, that room chosen and form values that pass the schema, every event
    of the flow can be delivered; one availability request and one creation
    request are sent, the latter for the property, the two days and the
    room; and once the record is saved the page is back at the start with
    the property kept, the form reset and nothing in flight. *)
Theorem enquiry_flow_creates_once (p : Js.number) (today d1 d2 : Js.Date)
        (rooms : list Schema.Room) (room : Schema.Room) (v : Input.t) (data : Form.t) :
  Js.truthy p = true ->
  today <= d1 -> d1 < d2 ->
  In room rooms ->
  Js.truthy (Schema.id room) = true ->
  Zod.enquiryFormSchema isEmail v = Some data ->
  run isEmail (EnquiryView.enquiryFlow p today d1 d2 rooms (Schema.id room) v) start
  = Some ({| ui := {| selectedPropertyId := Some p; checkInDate := None;
                      checkOutDate := None; availableRooms := [];
                      selectedRoomId := None; loadingRooms := false;
                      showGuestForm := false; form := Input.defaultValues |};
             inflight := []; saving := [] |},
          [fetch {| qPropertyId := Some p; qCheckIn := d1; qCheckOut := d2 |};
           toast (RoomsFound (List.length rooms));
           mutate (EnquiryView.enquiryData p d1 d2 (Schema.id room) data);
           invalidateQueries;
           toast EnquiryCreated]).
Proof.
  intros Hp H1 H2 Hin Hr Hv.
  assert (Hlen : (List.length rooms =? 0)%nat = false)
    by (destruct rooms; [destruct Hin | reflexivity]).
  assert (Hex : existsb (fun x => Js.same (Schema.id x) (Schema.id room)) rooms = true)
    by (apply existsb_exists; exists room; split; [exact Hin | apply same_refl]).
  assert (Hb1 : Js.isBefore d1 today = false) by (apply isBefore_false; exact H1).
  assert (Hb2 : Js.isBefore d2 today = false) by (apply isBefore_false; lia).
  assert (Hle : (d2 <=? d1) = false) by (apply Z.leb_gt; exact H2).
  unfold EnquiryView.enquiryFlow.
  erewrite run_step; [| reflexivity | reflexivity].
  erewrite run_step;
    [| cbn; exact Hp
     | unfold step, handler; run_handler; cbn; rewrite Hb1; cbn; reflexivity].
  erewrite run_step;
    [| cbn; exact Hp
     | unfold step, handler; run_handler; cbn; rewrite Hb2, Hle; cbn; reflexivity].
  erewrite run_step;
    [| reflexivity
     | unfold step, handler; run_handler; cbn; rewrite Hlen; cbn; reflexivity].
  erewrite run_step;
    [| cbn; exact Hex | reflexivity].
  erewrite run_step; [| reflexivity | reflexivity].
  erewrite run_step;
    [| reflexivity
     | unfold step, handler; run_handler; cbn; rewrite Hv; cbn;
       rewrite Hp, Hr; cbn; reflexivity].
  erewrite run_step; [| reflexivity | reflexivity].
  cbn. reflexivity.
Qed.
End Flow.

Lemma enquiry_flow_creates_once_witness :
  run Scenario.isEmail
    (EnquiryView.enquiryFlow (Js.Int 1) 5 10 13 [Scenario.room5] (Js.Int 5)
       Scenario.nineDigits) start
  = Some ({| ui := {| selectedPropertyId := Some (Js.Int 1); checkInDate := None;
                      checkOutDate := None; availableRooms := [];
                      selectedRoomId := None; loadingRooms := false;
                      showGuestForm := false; form := Input.defaultValues |};
             inflight := []; saving := [] |},
          [fetch {| qPropertyId := Some (Js.Int 1); qCheckIn := 10; qCheckOut := 13 |};
           toast (RoomsFound 1);
           mutate (EnquiryView.enquiryData (Js.Int 1) 10 13 (Js.Int 5)
                     {| Form.guestName := "Asha"; Form.guestPhone := "+123456789";
                        Form.guestEmail := Some ""%string; Form.numberOfGuests := 2%Q;
                        Form.priceQuoted := None; Form.advanceAmount := None;
                        Form.specialRequests := Some ""%string |});
           invalidateQueries;
           toast EnquiryCreated]).
Proof.
  apply (enquiry_flow_creates_once Scenario.isEmail (Js.Int 1) 5 10 13
           [Scenario.room5] Scenario.room5 Scenario.nineDigits).
  - reflexivity.
  - lia.
  - lia.
  - left. reflexivity.
  - reflexivity.
  - reflexivity.
Defined.

(** *** The settlement of the creation request *)

(** X7. When the creation succeeds the list of enquiries is invalidated and
    one toast is shown; the dates, the rooms, the chosen room and the form
    are reset while the selected property is kept, so the page awaits a
    check-in and date clicks are deliverable as before; the form is no
    longer on display, and its values are the defaults, which the schema
    rejects.  Availability requests in flight are not affected. *)
Theorem enquiry_saved_resets (isEmail : string -> bool) (w : World) (i : nat) :
  let w' := fst (step isEmail (EnquirySaved i) w) in
  snd (step isEmail (EnquirySaved i) w) = [invalidateQueries; toast EnquiryCreated]
  /\ ui w'
     = {| selectedPropertyId := selectedPropertyId (ui w); checkInDate := None;
          checkOutDate := None; availableRooms := []; selectedRoomId := None;
          loadingRooms := loadingRooms (ui w); showGuestForm := false;
          form := Input.defaultValues |}
  /\ selectionState (ui w') = NoCheckIn
  /\ inflight w' = inflight w
  /\ saving w' = cut i (saving w)
  /\ (forall today date,
        enabled (DateClicked today date) w' = enabled (DateClicked today date) w)
  /\ enabled FormSubmitted w' = false
  /\ Zod.enquiryFormSchema isEmail (form (ui w')) = None.
Proof.
  intros w'. subst w'. unfold step, handler. run_handler. cbn.
  rewrite !app_nil_r. repeat split; reflexivity.
Qed.

Lemma cut_last {A} (l : list A) (x : A) : cut (List.length l) (l ++ [x]) = l.
Proof.
  unfold cut. rewrite firstn_app, Nat.sub_diag, firstn_all. cbn [firstn].
  rewrite skipn_all2 by (rewrite length_app; cbn; lia).
  rewrite !app_nil_r. reflexivity.
Qed.

(** X8. When a creation fails one error toast is shown, with the error's
    message or, if it has none, "Failed to create enquiry"; the cells of the
    page and the availability requests in flight are left as they are and
    the failed request is no longer pending.  Hence a submission that sent a
    creation request, followed by the failure of that request, leads back
    to the very state before the submission, and submitting again sends the
    same request. *)
Theorem enquiry_failed_keeps_page (isEmail : string -> bool) :
  (forall w i message,
      let w' := fst (step isEmail (EnquiryFailed i message) w) in
      snd (step isEmail (EnquiryFailed i message) w)
      = [toast (CreateError (if String.eqb message "" then "Failed to create enquiry"
                             else message))]
      /\ ui w' = ui w
      /\ inflight w' = inflight w
      /\ saving w' = cut i (saving w))
  /\ (forall w e message,
        snd (step isEmail FormSubmitted w) = [mutate e] ->
        let w1 := fst (step isEmail FormSubmitted w) in
        let failure := EnquiryFailed (List.length (saving w)) message in
        let w2 := fst (step isEmail failure w1) in
        saving w1 = saving w ++ [e]
        /\ enabled failure w1 = true
        /\ w2 = w
        /\ snd (step isEmail FormSubmitted w2) = [mutate e]).
Proof.
  assert (Hfail : forall w i message,
             fst (step isEmail (EnquiryFailed i message) w)
             = {| ui := ui w; inflight := inflight w; saving := cut i (saving w) |}).
  { intros w i message. unfold step, handler. run_handler. cbn.
    rewrite !app_nil_r. reflexivity. }
  split.
  - intros w i message w'. subst w'. rewrite Hfail. cbn.
    repeat split.
  - intros w e message Hsent w1 failure w2.
    assert (Hw1 : w1 = {| ui := ui w; inflight := inflight w;
                          saving := saving w ++ [e] |}).
    { subst w1. revert Hsent. unfold step. cbn [handler].
      destruct (handleSubmit_cases isEmail (ui w)) as (effects & -> & Hq).
      cbn. intros ->. cbn. rewrite app_nil_r. reflexivity. }
    assert (Hw2 : w2 = w).
    { subst w2 failure. rewrite Hfail, Hw1. cbn. rewrite cut_last. apply world_eta. }
    split; [rewrite Hw1; reflexivity |].
    split; [| split; [exact Hw2 | rewrite Hw2; exact Hsent]].
    subst failure. rewrite Hw1. cbn. apply Nat.ltb_lt.
    rewrite length_app. cbn. lia.
Qed.

Lemma enquiry_failed_keeps_page_witness :
  fst (step Scenario.isEmail (EnquiryFailed 0 "")
         (fst (step Scenario.isEmail FormSubmitted (Scenario.after Samples.formFilled))))
  = Scenario.after Samples.formFilled.
Proof.
  apply (proj2 (enquiry_failed_keeps_page Scenario.isEmail)
           (Scenario.after Samples.formFilled)
           (EnquiryView.enquiryData (Js.Int 1) 10 13 (Js.Int 5)
              {| Form.guestName := "Asha"; Form.guestPhone := "+123456789";
                 Form.guestEmail := Some ""%string; Form.numberOfGuests := 2%Q;
                 Form.priceQuoted := None; Form.advanceAmount := None;
                 Form.specialRequests := Some ""%string |})
           ""%string).
  vm_compute. reflexivity.
Defined.

(** *** The highlighting of the calendar *)

Section Highlight.

Variable isEmail : string -> bool.
Variable toDateString : Js.Date -> string.

(** X9. In every reachable state: with a complete range the days in range
    are exactly those from the check-in to the check-out, both included,
    and both ends are also shown as selected; while the check-out is
    awaited no day is in range and the check-in is selected; with no
    check-in no day is in range or selected. *)
Theorem range_highlight (w : World) :
  reachable isEmail w ->
  match checkInDate (ui w), checkOutDate (ui w) with
  | Some checkIn, Some checkOut =>
      (forall date, EnquiryView.isDateInRange (ui w) date = true
                    <-> checkIn <= date <= checkOut)
      /\ EnquiryView.isDateInRange (ui w) checkIn = true
      /\ EnquiryView.isDateInRange (ui w) checkOut = true
      /\ EnquiryView.isDateSelected toDateString (ui w) checkIn = true
      /\ EnquiryView.isDateSelected toDateString (ui w) checkOut = true
  | Some checkIn, None =>
      (forall date, EnquiryView.isDateInRange (ui w) date = false)
      /\ EnquiryView.isDateSelected toDateString (ui w) checkIn = true
  | None, _ =>
      forall date, EnquiryView.isDateInRange (ui w) date = false
                   /\ EnquiryView.isDateSelected toDateString (ui w) date = false
  end.
Proof.
  intros Hreach.
  destruct (reachable_coherent isEmail w Hreach) as (I1 & _).
  pose proof (reachable_dates_ordered isEmail w Hreach) as Hord.
  unfold EnquiryView.isDateInRange, EnquiryView.isDateSelected.
  destruct (checkInDate (ui w)) as [checkIn |] eqn:Hin.
  - destruct (checkOutDate (ui w)) as [checkOut |] eqn:Hout.
    + specialize (Hord checkIn checkOut Hin Hout).
      assert (Hrange : forall date, (checkIn <=? date) && (date <=? checkOut) = true
                                    <-> checkIn <= date <= checkOut).
      { intros date. rewrite andb_true_iff, !Z.leb_le. tauto. }
      split; [exact Hrange |].
      split; [apply Hrange; lia |]. split; [apply Hrange; lia |].
      rewrite !String.eqb_refl. split; [reflexivity | apply orb_true_r].
    + split; [reflexivity |]. rewrite String.eqb_refl. reflexivity.
  - destruct (checkOutDate (ui w)) as [checkOut |] eqn:Hout.
    + exfalso. apply I1; [discriminate | reflexivity].
    + intros date. split; reflexivity.
Qed.

End Highlight.

Lemma range_highlight_witness :
  EnquiryView.isDateInRange (ui (Scenario.after Scenario.pickRange)) 13 = true.
Proof.
  pose proof (range_highlight Scenario.isEmail (fun _ => ""%string)
                (Scenario.after Scenario.pickRange)
                (after_reachable Scenario.pickRange ltac:(vm_compute; discriminate)))
    as H.
  change (checkInDate (ui (Scenario.after Scenario.pickRange))) with (Some 10) in H.
  change (checkOutDate (ui (Scenario.after Scenario.pickRange))) with (Some 13) in H.
  exact (proj1 (proj2 (proj2 H))).
Defined.

(** * Further properties of the occupancy calendar *)

Section Occupancy.

Variable selectedPropertyId : option Js.number.
Variable rooms : list Schema.Room.

Lemma filter_length_all {A} (f : A -> bool) (l : list A) :
  List.length (filter f l) = List.length l <-> forall x, In x l -> f x = true.
Proof.
  split.
  - intros H. apply forallb_forall. apply filter_length_forallb. exact H.
  - intros H. induction l as [| a l IH]; [reflexivity |].
    cbn. rewrite (H a (or_introl eq_refl)). cbn. f_equal.
    apply IH. intros x Hx. apply H. right. exact Hx.
Qed.

Lemma filter_length_none {A} (f : A -> bool) (l : list A) :
  List.length (filter f l) = 0%nat <-> forall x, In x l -> f x = false.
Proof.
  induction l as [| a l IH]; cbn.
  - split; [intros _ x [] | reflexivity].
  - destruct (f a) eqn:Ha; cbn.
    + split; [discriminate |]. intros H. rewrite (H a (or_introl eq_refl)) in Ha.
      discriminate Ha.
    + rewrite IH. split.
      * intros H x [<- | Hx]; [exact Ha | apply H; exact Hx].
      * intros H x Hx. apply H. right. exact Hx.
Qed.

Lemma filter_length_mono {A} (f g : A -> bool) (l : list A) :
  (forall x, In x l -> f x = true -> g x = true) ->
  (List.length (filter f l) <= List.length (filter g l))%nat.
Proof.
  intros H. induction l as [| a l IH]; [apply Nat.le_refl |].
  assert (IH' : (List.length (filter f l) <= List.length (filter g l))%nat)
    by (apply IH; intros x Hx; apply H; right; exact Hx).
  cbn. destruct (f a) eqn:Hf.
  - rewrite (H a (or_introl eq_refl) Hf). cbn. lia.
  - destruct (g a); cbn; lia.
Qed.

Lemma nonempty_has_member {A} (l : list A) : l <> [] -> exists a, In a l.
Proof.
  destruct l as [| a l]; [congruence |]. intros _. exists a. left. reflexivity.
Qed.

Lemma not_all_true_some_false {A} (f : A -> bool) (l : list A) :
  ~ (forall x, In x l -> f x = true) -> exists x, In x l /\ f x = false.
Proof.
  induction l as [| a l IH]; intros H.
  - exfalso. apply H. intros x [].
  - destruct (f a) eqn:Ha.
    + destruct IH as (x & Hx & Hf).
      * intros Hl. apply H. intros x [<- | Hx]; [exact Ha | apply Hl; exact Hx].
      * exists x. split; [right; exact Hx | exact Hf].
    + exists a. split; [left; reflexivity | exact Ha].
Qed.

(** X10. On every day the rooms counted as available and the rooms of the
    property that are occupied add up to the rooms of the property; the
    count never exceeds that total, which never exceeds the number of rooms
    fetched; and when none of the bookings qualifies, every room of the
    property is available. *)
Theorem available_count_bounds (bookings : list Booking.t) (date : Js.Date) :
  let propertyRooms := RoomCalendar.propertyRooms selectedPropertyId rooms in
  let availableCount :=
    RoomCalendar.getAvailableRoomsCount selectedPropertyId rooms bookings date in
  (availableCount
   + List.length
       (filter (fun room => RoomCalendar.isRoomOccupied selectedPropertyId bookings
                              (Schema.id room) date) propertyRooms)
   = List.length propertyRooms)%nat
  /\ (availableCount <= List.length propertyRooms)%nat
  /\ (List.length propertyRooms <= List.length rooms)%nat
  /\ (RoomCalendar.propertyBookings selectedPropertyId bookings = [] ->
      availableCount = List.length propertyRooms).
Proof.
  intros propertyRooms availableCount. subst propertyRooms availableCount.
  unfold RoomCalendar.getAvailableRoomsCount.
  split; [| split; [| split]].
  - rewrite Nat.add_comm.
    apply (filter_length
             (fun room => RoomCalendar.isRoomOccupied selectedPropertyId bookings
                            (Schema.id room) date)).
  - apply filter_length_le.
  - unfold RoomCalendar.propertyRooms.
    destruct selectedPropertyId as [sel |]; [| apply Nat.le_0_l].
    destruct (negb (Js.truthy sel)); [apply Nat.le_0_l | apply filter_length_le].
  - intros Hnone. apply filter_length_all. intros room _.
    unfold RoomCalendar.isRoomOccupied. rewrite Hnone. reflexivity.
Qed.

(** X11. A booking that is not of the selected property, or whose status
    is neither "confirmed" nor "checked-in", or whose check-out is not
    after its check-in, makes no difference wherever it stands among the
    bookings: every room is occupied on the same days with or without it,
    and the available count is the same. *)
Theorem unqualified_booking_ignored (before after : list Booking.t) (b : Booking.t) :
  (forall sel, selectedPropertyId = Some sel ->
               Js.strict_eq (Booking.propertyId b) sel = false)
  \/ (Booking.status b <> "confirmed"%string /\ Booking.status b <> "checked-in"%string)
  \/ Booking.checkOutDate b <= Booking.checkInDate b ->
  (forall roomId date,
      RoomCalendar.isRoomOccupied selectedPropertyId (before ++ b :: after) roomId date
      = RoomCalendar.isRoomOccupied selectedPropertyId (before ++ after) roomId date)
  /\ (forall date,
        RoomCalendar.getAvailableRoomsCount selectedPropertyId rooms
          (before ++ b :: after) date
        = RoomCalendar.getAvailableRoomsCount selectedPropertyId rooms
            (before ++ after) date).
Proof.
  intros Hb.
  assert (Hocc : forall roomId date,
             RoomCalendar.isRoomOccupied selectedPropertyId (before ++ b :: after) roomId date
             = RoomCalendar.isRoomOccupied selectedPropertyId (before ++ after) roomId date).
  { intros roomId date.
    unfold RoomCalendar.isRoomOccupied, RoomCalendar.propertyBookings.
    destruct selectedPropertyId as [sel |]; [| reflexivity].
    destruct (negb (Js.truthy sel)); [reflexivity |].
    rewrite !filter_app. cbn [filter].
    destruct Hb as [Hprop | [[Hc Hi] | Hdates]].
    - rewrite (Hprop sel eq_refl). reflexivity.
    - apply String.eqb_neq in Hc, Hi. rewrite Hc, Hi, andb_false_r. reflexivity.
    - destruct (Js.strict_eq (Booking.propertyId b) sel
                && (String.eqb (Booking.status b) "confirmed"
                    || String.eqb (Booking.status b) "checked-in")); [| reflexivity].
      rewrite !existsb_app. cbn [existsb]. f_equal.
      replace ((Booking.checkInDate b <=? date) && (date <? Booking.checkOutDate b))
        with false.
      + destruct (negb (Js.strict_eq (Booking.roomId b) roomId)); reflexivity.
      + symmetry. apply andb_false_iff.
        destruct (Z.leb_spec (Booking.checkInDate b) date) as [Hle | Hgt];
          [right; apply Z.ltb_ge; lia | left; reflexivity]. }
  split; [exact Hocc |].
  intros date. unfold RoomCalendar.getAvailableRoomsCount. f_equal.
  apply filter_ext. intros room. rewrite Hocc. reflexivity.
Qed.

(** X12. A further booking never frees a room: a room occupied on a day
    stays occupied on it when a booking is added anywhere among the
    bookings, and the available count of the day does not grow. *)
Theorem extra_booking_never_frees (before after : list Booking.t) (b : Booking.t)
        (date : Js.Date) :
  (forall roomId,
      RoomCalendar.isRoomOccupied selectedPropertyId (before ++ after) roomId date = true ->
      RoomCalendar.isRoomOccupied selectedPropertyId (before ++ b :: after) roomId date
      = true)
  /\ (RoomCalendar.getAvailableRoomsCount selectedPropertyId rooms
        (before ++ b :: after) date
      <= RoomCalendar.getAvailableRoomsCount selectedPropertyId rooms
           (before ++ after) date)%nat.
Proof.
  assert (Hocc : forall roomId,
             RoomCalendar.isRoomOccupied selectedPropertyId (before ++ after) roomId date
             = true ->
             RoomCalendar.isRoomOccupied selectedPropertyId (before ++ b :: after)
               roomId date = true).
  { intros roomId.
    unfold RoomCalendar.isRoomOccupied, RoomCalendar.propertyBookings.
    destruct selectedPropertyId as [sel |]; [| discriminate].
    destruct (negb (Js.truthy sel)); [discriminate |].
    rewrite !filter_app, !existsb_app. intros H.
    apply orb_true_iff in H. apply orb_true_iff.
    destruct H as [H | H]; [left; exact H | right].
    cbn [filter].
    destruct (Js.strict_eq (Booking.propertyId b) sel
              && (String.eqb (Booking.status b) "confirmed"
                  || String.eqb (Booking.status b) "checked-in")); [| exact H].
    cbn [existsb]. rewrite H. apply orb_true_r. }
  split; [exact Hocc |].
  unfold RoomCalendar.getAvailableRoomsCount.
  apply filter_length_mono. intros room _ Hfree.
  apply negb_true_iff in Hfree. apply negb_true_iff.
  destruct (RoomCalendar.isRoomOccupied selectedPropertyId (before ++ after)
              (Schema.id room) date) eqn:Hwas; [| reflexivity].
  rewrite (Hocc _ Hwas) in Hfree. discriminate Hfree.
Qed.

(** X13. The badge of a day is "outline" exactly when no room of the
    property is occupied on it (in particular when the property has no
    room), "destructive" exactly when the property has rooms and all of them
    are occupied, and "secondary" in the remaining case. *)
Theorem day_badge_variant (bookings : list Booking.t) (date : Js.Date) :
  let propertyRooms := RoomCalendar.propertyRooms selectedPropertyId rooms in
  let occupied room :=
    RoomCalendar.isRoomOccupied selectedPropertyId bookings (Schema.id room) date in
  let badge := CalendarView.dayBadge selectedPropertyId rooms bookings date in
  (badge = CalendarView.outline
   <-> forall room, In room propertyRooms -> occupied room = false)
  /\ (badge = CalendarView.destructive
      <-> propertyRooms <> []
          /\ forall room, In room propertyRooms -> occupied room = true)
  /\ (badge = CalendarView.secondary
      <-> (exists room, In room propertyRooms /\ occupied room = true)
          /\ (exists room, In room propertyRooms /\ occupied room = false)).
Proof.
  intros propertyRooms occupied badge.
  assert (Hall : RoomCalendar.getAvailableRoomsCount selectedPropertyId rooms bookings date
                 = List.length propertyRooms
                 <-> forall room, In room propertyRooms -> occupied room = false).
  { unfold RoomCalendar.getAvailableRoomsCount. fold propertyRooms.
    rewrite filter_length_all. split; intros H room Hroom.
    - apply negb_true_iff. apply H. exact Hroom.
    - apply negb_true_iff. apply H. exact Hroom. }
  assert (Hnone : RoomCalendar.getAvailableRoomsCount selectedPropertyId rooms bookings date
                  = 0%nat
                  <-> forall room, In room propertyRooms -> occupied room = true).
  { unfold RoomCalendar.getAvailableRoomsCount. fold propertyRooms.
    rewrite filter_length_none. split; intros H room Hroom.
    - apply negb_false_iff. apply H. exact Hroom.
    - apply negb_false_iff. apply H. exact Hroom. }
  assert (Hsome : forall f : Schema.Room -> bool,
             ~ (forall room, In room propertyRooms -> f room = true)
             -> exists room, In room propertyRooms /\ f room = false)
    by (intros f; apply not_all_true_some_false).
  subst badge. unfold CalendarView.dayBadge, CalendarView.badgeVariant.
  fold propertyRooms.
  destruct (Nat.eqb_spec
              (RoomCalendar.getAvailableRoomsCount selectedPropertyId rooms bookings date)
              (List.length propertyRooms)) as [Heq | Hneq].
  - pose proof (proj1 Hall Heq) as Hfree.
    split; [tauto |]. split.
    + split; [discriminate |]. intros [Hne Hocc].
      destruct (nonempty_has_member _ Hne) as [a Ha].
      specialize (Hfree a Ha). rewrite (Hocc a Ha) in Hfree. discriminate Hfree.
    + split; [discriminate |]. intros [(room & Hroom & Hocc) _].
      rewrite (Hfree room Hroom) in Hocc. discriminate Hocc.
  - destruct (Nat.ltb_spec 0
                (RoomCalendar.getAvailableRoomsCount selectedPropertyId rooms bookings date))
      as [Hpos | Hzero].
    + split; [split; [discriminate | intros H; apply Hall in H; congruence] |].
      split.
      * split; [discriminate |]. intros [_ H]. apply Hnone in H. lia.
      * split; [| intros _; reflexivity]. intros _. split.
        -- destruct (Hsome (fun room => negb (occupied room))) as (room & Hroom & Hf).
           ++ intros H. apply Hneq. apply Hall. intros room Hroom.
              apply negb_true_iff. apply H. exact Hroom.
           ++ exists room. split; [exact Hroom | apply negb_false_iff; exact Hf].
        -- destruct (Hsome occupied) as (room & Hroom & Hf).
           ++ intros H. apply Hnone in H. lia.
           ++ exists room. split; [exact Hroom | exact Hf].
    + assert (Hz : RoomCalendar.getAvailableRoomsCount selectedPropertyId rooms bookings date
                   = 0%nat) by lia.
      split; [split; [discriminate | intros H; apply Hall in H; congruence] |].
      split.
      * split; [| intros _; reflexivity]. intros _. split.
        -- intros Hnil. apply Hneq. rewrite Hz, Hnil. reflexivity.
        -- apply Hnone. exact Hz.
      * split; [discriminate |]. intros [_ (room & Hroom & Hf)].
        rewrite (proj1 Hnone Hz room Hroom) in Hf. discriminate Hf.
Qed.

End Occupancy.

Lemma unqualified_booking_ignored_witness :
  RoomCalendar.isRoomOccupied (Some (Js.Int 1))
    ([] ++ Samples.cancelled :: [RoomCalendar.reservation_10_15 (Js.Int 1) (Js.Int 5)])
    (Js.Int 5) (RoomCalendar.may 2)
  = RoomCalendar.isRoomOccupied (Some (Js.Int 1))
      ([] ++ [RoomCalendar.reservation_10_15 (Js.Int 1) (Js.Int 5)])
      (Js.Int 5) (RoomCalendar.may 2).
Proof.
  apply (unqualified_booking_ignored (Some (Js.Int 1)) [Scenario.room5] []
           [RoomCalendar.reservation_10_15 (Js.Int 1) (Js.Int 5)] Samples.cancelled).
  right. left. split; discriminate.
Defined.

(** X14. The rooms on display are the fetched rooms whose property is the
    selected one, and only for a truthy selection: with no property
    selected, or with the id 0 or NaN, no room is listed, no room is
    occupied, the available count is 0 and the badge is "outline". *)
Theorem property_rooms_spec (selectedPropertyId : option Js.number)
        (rooms : list Schema.Room) :
  (forall room,
      In room (RoomCalendar.propertyRooms selectedPropertyId rooms)
      <-> exists sel, selectedPropertyId = Some sel /\ Js.truthy sel = true
                      /\ In room rooms /\ Schema.propertyId room = sel)
  /\ (RoomCalendar.calendarRendered selectedPropertyId = false ->
      RoomCalendar.propertyRooms selectedPropertyId rooms = []
      /\ forall bookings date,
           RoomCalendar.getAvailableRoomsCount selectedPropertyId rooms bookings date
           = 0%nat
           /\ CalendarView.dayBadge selectedPropertyId rooms bookings date
              = CalendarView.outline
           /\ forall roomId,
                RoomCalendar.isRoomOccupied selectedPropertyId bookings roomId date
                = false).
Proof.
  split.
  - intros room. unfold RoomCalendar.propertyRooms.
    destruct selectedPropertyId as [sel |].
    + destruct (Js.truthy sel) eqn:Htruthy; cbn [negb].
      * rewrite filter_In. destruct sel as [| z]; [discriminate Htruthy |].
        rewrite strict_eq_Int. split.
        -- intros [Hin Hprop]. exists (Js.Int z). repeat split; assumption.
        -- intros (sel & Hsel & _ & Hin & Hprop). injection Hsel as <-.
           split; assumption.
      * split; [intros [] |]. intros (sel' & Hsel & Ht & _). injection Hsel as <-.
        congruence.
    + split; [intros [] |]. intros (sel & Hsel & _). discriminate Hsel.
  - intros Hoff.
    assert (Hrooms : RoomCalendar.propertyRooms selectedPropertyId rooms = []).
    { unfold RoomCalendar.calendarRendered in Hoff. unfold RoomCalendar.propertyRooms.
      destruct selectedPropertyId as [sel |]; [| reflexivity].
      cbn in Hoff. rewrite Hoff. reflexivity. }
    split; [exact Hrooms |]. intros bookings date.
    unfold CalendarView.dayBadge, RoomCalendar.getAvailableRoomsCount.
    rewrite Hrooms. cbn. repeat split.
    intros roomId. apply not_rendered_not_occupied. exact Hoff.
Qed.

Lemma property_rooms_spec_witness :
  RoomCalendar.propertyRooms (Some (Js.Int 0)) [Scenario.room5] = [].
Proof.
  apply (proj2 (property_rooms_spec (Some (Js.Int 0)) [Scenario.room5])).
  reflexivity.
Defined.

(** X16. What the schema hands to [onSubmit] is what was typed: the name,
    the phone number, the e-mail and the special requests are passed on
    unchanged, the numbers are the coerced inputs, and they meet the bounds
    (a name of [length] 2 or more and a phone number of [length] 10 or
    more, in UTF-16 code units, an integer number of guests not below 1,
    amounts not below 0). *)
Theorem schema_output (isEmail : string -> bool) (v : Input.t) (data : Form.t) :
  Zod.enquiryFormSchema isEmail v = Some data ->
  Form.guestName data = Input.guestName v
  /\ Form.guestPhone data = Input.guestPhone v
  /\ Form.guestEmail data = Input.guestEmail v
  /\ Form.specialRequests data = Input.specialRequests v
  /\ Input.numberOfGuests v = Js.CNum (Form.numberOfGuests data)
  /\ Input.priceQuoted v = option_map Js.CNum (Form.priceQuoted data)
  /\ Input.advanceAmount v = option_map Js.CNum (Form.advanceAmount data)
  /\ (2 <= Js.length (Form.guestName data))%nat
  /\ (10 <= Js.length (Form.guestPhone data))%nat
  /\ (exists z, (Form.numberOfGuests data == inject_Z z)%Q /\ 1 <= z)
  /\ (forall q, Form.priceQuoted data = Some q -> (0 <= q)%Q)
  /\ (forall q, Form.advanceAmount data = Some q -> (0 <= q)%Q).
Proof.
  unfold Zod.enquiryFormSchema, Zod.string_min.
  destruct (2 <=? Js.length (Input.guestName v))%nat eqn:Hname; [| discriminate].
  destruct (10 <=? Js.length (Input.guestPhone v))%nat eqn:Hphone; [| discriminate].
  cbn [negb].
  destruct (Zod.email isEmail (Input.guestEmail v)) as [e |] eqn:He; [| discriminate].
  destruct (Zod.guests (Input.numberOfGuests v)) as [n |] eqn:Hn; [| discriminate].
  destruct (Zod.amount (Input.priceQuoted v)) as [pq |] eqn:Hpq; [| discriminate].
  destruct (Zod.amount (Input.advanceAmount v)) as [aa |] eqn:Haa; [| discriminate].
  intros H. injection H as <-. cbn.
  apply Nat.leb_le in Hname, Hphone.
  assert (Hamount : forall o r, Zod.amount o = Some r ->
                      o = option_map Js.CNum r /\ forall q, r = Some q -> (0 <= q)%Q).
  { intros o r. unfold Zod.amount. destruct o as [[| q] |].
    - discriminate.
    - destruct (Qle_bool 0 q) eqn:Hle; [| discriminate].
      intros H. injection H as <-. split; [reflexivity |].
      intros q' Hq'. injection Hq' as <-. apply Qle_bool_iff. exact Hle.
    - intros H. injection H as <-. split; [reflexivity | discriminate]. }
  destruct (Hamount _ _ Hpq) as [Hpq1 Hpq2]. destruct (Hamount _ _ Haa) as [Haa1 Haa2].
  assert (Hemail : e = Input.guestEmail v).
  { unfold Zod.email in He. destruct (Input.guestEmail v) as [s |].
    - destruct (isEmail s || String.eqb s ""); [congruence | discriminate].
    - congruence. }
  assert (Hguests : Input.numberOfGuests v = Js.CNum n
                    /\ exists z, (n == inject_Z z)%Q /\ 1 <= z).
  { unfold Zod.guests in Hn. destruct (Input.numberOfGuests v) as [| q]; [discriminate |].
    destruct (Js.isInteger q) eqn:Hint; [| discriminate].
    destruct (Qle_bool 1 q) eqn:Hle; [| discriminate].
    cbn in Hn. injection Hn as <-. split; [reflexivity |].
    unfold Js.isInteger in Hint. apply Qeq_bool_iff in Hint.
    exists (Qfloor q). split; [exact Hint |].
    apply Qle_bool_iff in Hle. rewrite Hint in Hle.
    change 1%Q with (inject_Z 1) in Hle. rewrite <- Zle_Qle in Hle. exact Hle. }
  destruct Hguests as [Hg1 Hg2].
  repeat split; try assumption; try reflexivity.
Qed.

Lemma schema_output_witness :
  Input.numberOfGuests Scenario.nineDigits = Js.CNum 2%Q.
Proof.
  exact (proj1 (proj2 (proj2 (proj2 (proj2
           (schema_output Scenario.isEmail Scenario.nineDigits
              {| Form.guestName := "Asha"; Form.guestPhone := "+123456789";
                 Form.guestEmail := Some ""%string; Form.numberOfGuests := 2%Q;
                 Form.priceQuoted := None; Form.advanceAmount := None;
                 Form.specialRequests := Some ""%string |} eq_refl)))))).
Defined.
